(** * gitpress: the Repository aggregate ([gitpress/repository.py]) and the
      preview server ([gitpress/previewing.py])

    A shallow embedding of the repository orchestration code and the
    properties of it that the specification states.

    The code is Python 2 on a POSIX host: [str] is modelled by [string],
    [None]-able arguments by [option], dictionaries by [gmap], exceptions by
    an error sum, and the effects on the host (file system, sub-processes,
    sockets, standard output) by a state-and-error monad which also records
    the calls that leave the program in an event log. *)

From Stdlib Require Import ZArith Lia Bool Ascii String List DecimalString.
From stdpp Require Import base option list gmap strings fin_maps.

Local Open Scope string_scope.

(** ** [os.path] on POSIX ([posixpath]) *)

Module posixpath.

(** [s.startswith(p)], and [s.endswith(c)] for a one-character [c]. *)
Fixpoint startswith (s p : string) {struct p} : bool :=
  match p, s with
  | EmptyString, _ => true
  | String a p', String b s' => Ascii.eqb b a && startswith s' p'
  | String _ _, EmptyString => false
  end.

Fixpoint endswith_chr (s : string) (c : ascii) : bool :=
  match s with
  | EmptyString => false
  | String a EmptyString => Ascii.eqb a c
  | String _ s' => endswith_chr s' c
  end.

(** [s.split(c)] for a one-character separator: never the empty list. *)
Fixpoint split (c : ascii) (s : string) : list string :=
  match s with
  | EmptyString => [EmptyString]
  | String a s' =>
      if Ascii.eqb a c then EmptyString :: split c s'
      else match split c s' with
           | h :: t => String a h :: t
           | [] => [String a EmptyString]
           end
  end.

(** [c * n] for a one-character string [c]. *)
Fixpoint str_repeat (c : ascii) (n : nat) : string :=
  match n with
  | O => EmptyString
  | S n' => String c (str_repeat c n')
  end.

Definition isabs (s : string) : bool := startswith s "/".

(** [join(a, b)]:
<<
    if b.startswith('/'):                 path = b
    elif path == '' or path.endswith('/'): path += b
    else:                                  path += '/' + b
>> *)
Definition join (a b : string) : string :=
  if startswith b "/" then b
  else if String.eqb a "" || endswith_chr a "/" then a +:+ b
  else a +:+ "/" +:+ b.

(** The number [initial_slashes] of [normpath]: [False], [True] or [2]. *)
Definition initial_slashes (path : string) : nat :=
  if startswith path "/" then
    if startswith path "//" && negb (startswith path "///") then 2 else 1
  else 0.

(** One turn of the loop of [normpath] over the components; [new_comps] is
    the Python list, appended to and popped at its end. *)
Definition normpath_step (ini : nat) (new_comps : list string) (comp : string)
  : list string :=
  if String.eqb comp "" || String.eqb comp "." then new_comps
  else if negb (String.eqb comp "..")
          || (Nat.eqb ini 0 && bool_decide (new_comps = []))
          || (negb (bool_decide (new_comps = []))
              && String.eqb (List.last new_comps "") "..")
       then new_comps ++ [comp]
  else if negb (bool_decide (new_comps = [])) then removelast new_comps
  else new_comps.

Definition normpath (path : string) : string :=
  if String.eqb path "" then "."
  else
    let ini := initial_slashes path in
    let comps := split "/" path in
    let new_comps := fold_left (normpath_step ini) comps [] in
    let path := String.concat "/" new_comps in
    let path := if Nat.eqb ini 0 then path else str_repeat "/" ini +:+ path in
    if String.eqb path "" then "." else path.

(** [abspath(path)], with [cwd] the value of [os.getcwd()]. *)
Definition abspath (cwd path : string) : string :=
  if isabs path then normpath path else normpath (join cwd path).

End posixpath.

(** ** Normal forms of paths *)

(** No ['/'] occurs in the string. *)
Fixpoint slashfree (s : string) : bool :=
  match s with
  | EmptyString => true
  | String a s' => negb (Ascii.eqb a "/") && slashfree s'
  end.

(** A component that [normpath] keeps as a name. *)
Definition proper (c : string) : Prop :=
  c ≠ "" ∧ c ≠ "." ∧ c ≠ ".." ∧ slashfree c = true.

(** What may follow the components [acc] in a normal form: a name, or for
    a relative path one more [".."] after nothing but [".."]. *)
Definition follows (ini : nat) (acc : list string) (c : string) : Prop :=
  proper c ∨ (c = ".." ∧ ini = 0 ∧ Forall (λ x, x = "..") acc).

Definition normal (ini : nat) (l : list string) : Prop :=
  ∀ (acc : list string) c l', l = (acc ++ c :: l')%list → follows ini acc c.

(** The path [normpath] writes for [ini] initial slashes and the components
    [comps]. *)
Definition render (ini : nat) (comps : list string) : string :=
  let path := String.concat "/" comps in
  let path := if Nat.eqb ini 0 then path else posixpath.str_repeat "/" ini +:+ path in
  if String.eqb path "" then "." else path.

(** ** Python values, exceptions and results *)

(** The values a configuration holds ([None], [str], [int], [dict] with [str]
    keys) and the arguments of a positional call. *)
#[warnings="-register-all"]
Inductive value :=
  | VNone
  | VBool (b : bool)
  | VInt (n : Z)
  | VStr (s : string)
  | VDict (d : gmap string value).

Inductive pytype := TBool | TInt | TStr | TDict.

(** [isinstance(v, t)]. *)
Definition isinstance (v : value) (t : pytype) : bool :=
  match v, t with
  | VBool _, TBool | VInt _, TInt | VStr _, TStr | VDict _, TDict => true
  | _, _ => false
  end.

(** [v != s] for a [str] [s]: values of another type are never equal to it. *)
Definition ne_str (v : value) (s : string) : bool :=
  match v with
  | VStr s' => negb (String.eqb s' s)
  | _ => true
  end.

(** An argument that may be omitted ([None]) as a value. *)
Definition of_opt_str (o : option string) : value :=
  match o with Some s => VStr s | None => VNone end.

(** The one-character string made of a double quote. *)
Definition dquote : string := String (ascii_of_nat 34) EmptyString.

(** [str(n)] for an [int]. *)
Definition str_of_Z (n : Z) : string :=
  match n with
  | Z0 => "0"
  | Zpos p => NilEmpty.string_of_uint (Pos.to_uint p)
  | Zneg p => "-" +:+ NilEmpty.string_of_uint (Pos.to_uint p)
  end.

(** Exception classes: the five kinds of [gitpress/exceptions.py], the
    built-in ones the code can meet, and any other class by name. *)
Inductive exn_class :=
  | RepositoryAlreadyExistsError
  | RepositoryNotFoundError
  | InvalidRepositoryError
  | PresenterNotFoundError
  | ThemeNotFoundError
  | ConfigSchemaError
  | NotImplementedError
  | TypeError
  | AttributeError
  | OSError
  | OtherError (name : string).

#[global] Instance exn_class_eq_dec : EqDecision exn_class.
Proof. solve_decision. Defined.

(** An exception instance: its class and the arguments it was built from. *)
Record exn := Exn { exn_cls : exn_class; exn_args : list string }.

#[global] Instance exn_eq_dec : EqDecision exn.
Proof. solve_decision. Defined.

(** Modelled from the spec: [gitpress/exceptions.py] is not part of the
    sources at hand; the specification lists the error kinds as distinct
    signals, so no kind is a subclass of another and an [except C] clause
    catches exactly the instances of [C]. *)
Definition catches (handlers : list exn_class) (e : exn) : bool :=
  bool_decide (exn_cls e ∈ handlers).

(** How a call ends: it returns, it raises, or it never returns (the serve
    loop of the preview server). *)
Inductive outcome (A : Type) :=
  | Returns (a : A)
  | Raises (e : exn)
  | Blocks.
Arguments Returns {A} a.
Arguments Raises {A} e.
Arguments Blocks {A}.

(** ** The configuration store *)

(** Modelled from the spec: [gitpress/config.py] is not part of the sources
    at hand.  The specification describes a persistent key/value store,
    written through on every [set]; [get(key, default, expect, silent)]
    returns the default for a missing key, and for a value that is not of
    the expected type returns the default when [silent] and fails hard
    otherwise; [set(key, value)] stores the value and returns the one it
    replaces ([None] when there was none), which is what [use_theme]
    compares with the new theme. *)
Module Config.

(** Modelled from the spec: the store of [gitpress/config.py], a mapping
    from keys to values. *)
Record t := Build { data : gmap string value }.

(** Modelled from the spec: the constant [Config.config_file], the name of
    the configuration file inside the metadata directory ([<repo>/config]). *)
Definition config_file : string := "config".

(** Modelled from the spec: [Config.get(key, default, expect, silent)]; the
    default for a missing key; for a value of another type than expected,
    the default when [silent], a hard error otherwise. *)
Definition get (c : t) (key : string) (default : value)
    (expect : option pytype) (silent : bool) : exn + value :=
  match data c !! key with
  | None => inr default
  | Some v =>
      match expect with
      | None => inr v
      | Some ty =>
          if isinstance v ty then inr v
          else if silent then inr default
          else inl (Exn ConfigSchemaError [key])
      end
  end.

(** Modelled from the spec: [Config.set(key, value)]; the value is stored
    under the key.  The specification does not say what [set] returns:
    [use_theme] compares the result with the new theme and documents that it
    returns [False] for the active theme, so the result is taken to be the
    value that is replaced ([None] if there was none).  The store is written
    through to the configuration file; that file is not part of the model,
    which keeps the mapping only, so nothing here says that a [set] leaves
    the host as it was. *)
Definition set (c : t) (key : string) (v : value) : value * t :=
  (default VNone (data c !! key), Build (<[key := v]> (data c))).

End Config.

(** ** Presenters, plugin requirements, repositories *)

(** A resolved presenter; what it does is the host's business. *)
Record Presenter := { presenter_name : string }.

(** Modelled from the spec: [gitpress/plugin.py] is not part of the sources
    at hand; a plugin requirement is a value with a name and its options. *)
Record PluginRequirement := { plugin_name : string; plugin_options : value }.

(** [PluginRequirement(plugin, plugins[plugin])] for an item of the mapping. *)
Definition requirement (kv : string * value) : PluginRequirement :=
  {| plugin_name := kv.1; plugin_options := kv.2 |}.

Record Repository := {
  directory : string;
  content_directory : string;
  config : Config.t;
  presenter : option Presenter
}.

Definition with_config (self : Repository) (c : Config.t) : Repository :=
  {| directory := directory self; content_directory := content_directory self;
     config := c; presenter := presenter self |}.

Definition with_presenter (self : Repository) (p : option Presenter) : Repository :=
  {| directory := directory self; content_directory := content_directory self;
     config := config self; presenter := p |}.

(** ** The host *)

(** The calls that leave the program, in the order they are made. *)
Inductive event :=
  | EvCopytree (src dst : string)
  | EvSubprocess (argv : list string) (cwd : option string)
  | EvPresenterBuild (p : Presenter) (args : list value)
  | EvBuild (directory : string)
  | EvChdir (directory : string)
  | EvBind (host : string) (port : Z)
  | EvPrint (line : string)
  | EvServeForever.

(** The collaborators of the repository code that are outside the sources at
    hand, over a host state [W]: the operating system, the configuration
    loader, the presenter registry, the template resolver, the site builder
    and the socket server.  Reads are functions of the state; calls with an
    effect return the next state. *)
Class Host (W : Type) := {
  os_getcwd : W → string;
  os_path_isdir : W → string → bool;
  os_path_exists : W → string → bool;
  os_listdir : W → string → exn + list string;
  os_chdir : string → W → (exn + unit) * W;
  shutil_copytree : string → string → W → (exn + unit) * W;
  subprocess_call : list string → option string → W → (exn + Z) * W;
  repr : string → string;
  Config_load : W → string → exn + Config.t;
  Presenter_resolve : W → Repository → option string → exn + Presenter;
  Presenter_build : Presenter → list value → W → (exn + string) * W;
  default_template : string;
  resolve_template : W → string → exn + string;
  building_build : string → W → (exn + string) * W;
  TCPServer : string → Z → W → (exn + unit) * W
}.

Record state (W : Type) := State { world : W; log : list event }.
Arguments State {W} world log.
Arguments world {W} s.
Arguments log {W} s.

(** Computations over the host: state passing, with exceptions. *)
Definition Py (W A : Type) : Type := state W → outcome A * state W.

#[global] Instance Py_ret {W} : MRet (Py W) := λ A a s, (Returns a, s).

#[global] Instance Py_bind {W} : MBind (Py W) :=
  λ A B k m s,
    match m s with
    | (Returns a, s') => k a s'
    | (Raises e, s') => (Raises e, s')
    | (Blocks, s') => (Blocks, s')
    end.

Definition raise {W A} (e : exn) : Py W A := λ s, (Raises e, s).

(** A read of the host. *)
Definition read {W A} (f : W → A) : Py W A := λ s, (Returns (f (world s)), s).

Definition lift {W A} (r : exn + A) : Py W A :=
  match r with inl e => raise e | inr a => mret a end.

(** A fallible read of the host. *)
Definition query {W A} (f : W → exn + A) : Py W A := λ s, lift (f (world s)) s.

(** A call with an effect: it is logged, then it happens. *)
Definition call {W A} (ev : event) (f : W → (exn + A) * W) : Py W A :=
  λ s, let '(r, w) := f (world s) in
       lift r (State w (log s ++ [ev])).

(** An output that only the log sees. *)
Definition emit {W} (ev : event) : Py W unit :=
  λ s, (Returns tt, State (world s) (log s ++ [ev])).

(** A call that never returns. *)
Definition forever {W A} (ev : event) : Py W A :=
  λ s, (Blocks, State (world s) (log s ++ [ev])).

(** [try: body  except C1: pass ... except Cn: pass]. *)
Definition try_pass {W} (body : Py W unit) (handlers : list exn_class) : Py W unit :=
  λ s, match body s with
       | (Raises e, s') => if catches handlers e then (Returns tt, s') else (Raises e, s')
       | r => r
       end.

(** ** [gitpress/repository.py] *)

Module Repo.
Section repository.
Context {W : Type} `{!Host W}.

Definition default_directory : string := ".gitpress".
Definition themes_directory : string := "themes".
Definition default_theme : string := "default".

(** [Repository.resolve(content_directory=None, repo_directory=None)]. *)
Definition resolve (cwd : string) (content_directory repo_directory : option string)
  : string * string :=
  match repo_directory, content_directory with
  | Some repo_directory, None =>
      (posixpath.join repo_directory "..", repo_directory)
  | _, _ =>
      let content_directory := default "." content_directory in
      let repo_directory := default default_directory repo_directory in
      let content_directory := posixpath.abspath cwd content_directory in
      (content_directory, posixpath.join content_directory repo_directory)
  end.

(** [resolve] applied to a pair it has returned, both arguments given. *)
Definition resolve_again (cwd : string) (pair : string * string) : string * string :=
  resolve cwd (Some pair.1) (Some pair.2).

(** Both directories of a pair as absolute normalized paths. *)
Definition normalized (cwd : string) (pair : string * string) : string * string :=
  (posixpath.abspath cwd pair.1, posixpath.abspath cwd pair.2).

(** The arguments [__init__] hands to [resolve] (lines 26-29). *)
Definition init_resolve_args (directory content_directory : option string)
  : option string * option string :=
  let directory := default "." directory in
  (content_directory, Some directory).

(** [Repository(directory=None, content_directory=None, presenter=None)]. *)
Definition new (directory content_directory presenter : option string)
  : Py W Repository :=
  let '(c, d) := init_resolve_args directory content_directory in
  cwd ← read os_getcwd;
  let '(content_directory, directory) := resolve cwd c d in
  let config_file := posixpath.join directory Config.config_file in
  isdir ← read (λ w, os_path_isdir w directory);
  if negb isdir then raise (Exn RepositoryNotFoundError [directory]) else
  found ← read (λ w, os_path_exists w config_file);
  if negb found then
    raise (Exn InvalidRepositoryError
             [directory; "Config file not found: " +:+ config_file]) else
  config ← query (λ w, Config_load w config_file);
  let self := {| directory := directory; content_directory := content_directory;
                 config := config; presenter := None |} in
  p ← query (λ w, Presenter_resolve w self presenter);
  mret (with_presenter self (Some p)).

(** [Repository.from_content]. *)
Definition from_content (content_directory repo_directory presenter : option string)
  : Py W Repository :=
  let content_directory := default "." content_directory in
  new repo_directory (Some content_directory) presenter.

(** Lines 81-90 of [init]: the check for an existing repository. *)
Definition init_probe (content_directory repo_directory : string) : Py W unit :=
  try_pass
    (_ ← new (Some repo_directory) (Some content_directory) None;
     raise (Exn RepositoryAlreadyExistsError [content_directory; repo_directory]))
    [RepositoryNotFoundError; InvalidRepositoryError; PresenterNotFoundError].

(** Lines 92-103 of [init]: the template is copied, put under version
    control, and the repository is looked up again. *)
Definition init_create (template content_directory repo_directory : string)
  : Py W Repository :=
  template_path ← query (λ w, resolve_template w template);
  call (EvCopytree template_path repo_directory)
       (shutil_copytree template_path repo_directory);;
  let message :=
    dquote +:+ "Add "
    +:+ (if String.eqb template default_template then template else repr template)
    +:+ " presentation content." +:+ dquote in
  let git argv cwd := call (EvSubprocess argv cwd) (subprocess_call argv cwd) in
  git ["git"; "init"; "-q"; repo_directory] None;;
  git ["git"; "add"; "."] (Some repo_directory);;
  git ["git"; "commit"; "-q"; "-m"; message] (Some repo_directory);;
  new (Some repo_directory) (Some content_directory) None.

(** [Repository.init(self, content_directory=None, repo_directory=None,
    template=None)], a static method. *)
Definition init {S : Type} (self : S)
    (content_directory repo_directory template : option string)
  : Py W Repository :=
  let template := default default_template template in
  cwd ← read os_getcwd;
  let '(content_directory, repo_directory) :=
    resolve cwd content_directory repo_directory in
  init_probe content_directory repo_directory;;
  init_create template content_directory repo_directory.

(** A call [Repository.init(a1, ..., an)] with positional arguments only:
    they fill the parameters of [init] from the left; the first one is
    required, the others default to [None]. *)
Definition init_positional (args : list (option string)) : Py W Repository :=
  match args with
  | [a] => init a None None None
  | [a; b] => init a b None None
  | [a; b; c] => init a b c None
  | [a; b; c; d] => init a b c d
  | _ => raise (Exn TypeError ["init() takes at least 1 argument"])
  end.

(** [Repository.clone]. *)
Definition clone {S : Type} (self : S) (content_directory url : string)
  : Py W Repository :=
  raise (Exn NotImplementedError []).

(** [x or d] for an optional [str] and for an optional [int]. *)
Definition or_str (x : option string) (d : string) : string :=
  match x with
  | Some s => if String.eqb s "" then d else s
  | None => d
  end.

Definition or_int (x : option Z) (d : Z) : Z :=
  match x with
  | Some n => if Z.eqb n 0 then d else n
  | None => d
  end.

(** [preview(directory=None, host=None, port=None, watch=True)] of
    [gitpress/previewing.py].  [Repository.preview] does not call it: it
    imports its [preview] from the module [previewer], modelled below. *)
Definition previewing_preview (directory host : option string) (port : option Z)
    (watch : bool) : Py W unit :=
  let directory := or_str directory "." in
  let host := or_str host "127.0.0.1" in
  let port := or_int port 5000 in
  out_directory ← call (EvBuild directory) (building_build directory);
  call (EvChdir out_directory) (os_chdir out_directory);;
  call (EvBind host port) (TCPServer host port);;
  emit (EvPrint (" * Serving on http://" +:+ host +:+ ":" +:+ str_of_Z port +:+ "/"));;
  forever EvServeForever.



(** [Repository.build(self, out_directory=None, virtualenv=True)]. *)
Definition build (self : Repository) (out_directory : option string)
    (virtualenv : bool) : Py W string :=
  match presenter self with
  | None => raise (Exn AttributeError ["'NoneType' object has no attribute 'build'"])
  | Some p =>
      let args := [of_opt_str out_directory] in
      call (EvPresenterBuild p args) (Presenter_build p args)
  end.

(** [build] as the specification words it: the output directory and the
    isolation flag are both handed to the presenter. *)
Definition build_as_specified (self : Repository) (out_directory : option string)
    (isolate : bool) : Py W string :=
  match presenter self with
  | None => raise (Exn AttributeError ["'NoneType' object has no attribute 'build'"])
  | Some p =>
      let args := [of_opt_str out_directory; VBool isolate] in
      call (EvPresenterBuild p args) (Presenter_build p args)
  end.

(** [Repository.themes(self)]: the listing, or [None]. *)
Definition themes (self : Repository) : Py W (option (list string)) :=
  let path := posixpath.join (directory self) themes_directory in
  isdir ← read (λ w, os_path_isdir w path);
  if (isdir : bool) then
    l ← query (λ w, os_listdir w path);
    mret (Some l)
  else mret None.

(** [Repository.use_theme(self, theme)]; the repository carries the
    configuration that [set] has written. *)
Definition use_theme (self : Repository) (theme : string)
  : Py W (bool * Repository) :=
  installed ← themes self;
  match installed with
  | None => raise (Exn TypeError ["argument of type 'NoneType' is not iterable"])
  | Some l =>
      if negb (bool_decide (theme ∈ l)) then raise (Exn ThemeNotFoundError [theme])
      else
        let '(old, c) := Config.set (config self) "theme" (VStr theme) in
        mret (ne_str old theme, with_config self c)
  end.

(** [Repository.install_theme] and [Repository.uninstall_theme]. *)
Definition install_theme (self : Repository) (theme : string) : Py W unit :=
  raise (Exn NotImplementedError []).

Definition uninstall_theme (self : Repository) (theme : string) : Py W unit :=
  raise (Exn NotImplementedError []).

End repository.

(** *** Plugins: these touch the configuration only *)

(** [Repository.plugins(self)].  The list follows the iteration order of
    the dictionary, which the model does not know: [map_to_list] fixes some
    order, and the properties of the list are stated up to its order. *)
Definition plugins (self : Repository) : exn + list PluginRequirement :=
  match Config.get (config self) "plugins" (VDict ∅) (Some TDict) true with
  | inl e => inl e
  | inr (VDict plugins) =>
      inr (requirement <$> map_to_list plugins)
  | inr _ => inl (Exn TypeError ["object is not iterable"])
  end.

(** [Repository.add_plugin(self, plugin)]; the repository returned carries
    the configuration as [set] has written it. *)
Definition add_plugin (self : Repository) (plugin : string)
  : (exn + bool) * Repository :=
  match Config.get (config self) "plugins" (VDict ∅) (Some TDict) false with
  | inl e => (inl e, self)
  | inr (VDict plugins) =>
      if bool_decide (is_Some (plugins !! plugin)) then (inr false, self)
      else
        let plugins := <[plugin := VDict ∅]> plugins in
        let '(_, c) := Config.set (config self) "plugins" (VDict plugins) in
        (inr true, with_config self c)
  | inr _ => (inl (Exn TypeError ["argument is not iterable"]), self)
  end.

(** [Repository.remove_plugin(self, plugin)]. *)
Definition remove_plugin (self : Repository) (plugin : string)
  : (exn + bool) * Repository :=
  match Config.get (config self) "plugins" (VDict ∅) (Some TDict) false with
  | inl e => (inl e, self)
  | inr (VDict plugins) =>
      if negb (bool_decide (is_Some (plugins !! plugin))) then (inr false, self)
      else
        let plugins := delete plugin plugins in
        let '(_, c) := Config.set (config self) "plugins" (VDict plugins) in
        (inr true, with_config self c)
  | inr _ => (inl (Exn TypeError ["argument is not iterable"]), self)
  end.

End Repo.

(** ** A small host to run the code on *)

Module Toy.

Record world := World {
  cwd : string;
  dirs : gmap string (list string);
  files : gmap string Config.t;
  presenters : list string
}.

Definition isdir (w : world) (p : string) : bool :=
  bool_decide (is_Some (dirs w !! p)).

Definition exists_ (w : world) (p : string) : bool :=
  isdir w p || bool_decide (is_Some (files w !! p)).

Definition listdir (w : world) (p : string) : exn + list string :=
  match dirs w !! p with
  | Some l => inr l
  | None => inl (Exn OSError [p])
  end.

Definition chdir (d : string) (w : world) : (exn + unit) * world :=
  if isdir w d then (inr tt, World d (dirs w) (files w) (presenters w))
  else (inl (Exn OSError [d]), w).

(** The tree below [src] is its listing, its configuration file and its
    themes directory. *)
Definition copytree (src dst : string) (w : world) : (exn + unit) * world :=
  if exists_ w dst then (inl (Exn OSError [dst]), w)
  else match dirs w !! src with
       | None => (inl (Exn OSError [src]), w)
       | Some l =>
           let ds := <[dst := l]> (dirs w) in
           let ds := match dirs w !! posixpath.join src "themes" with
                     | Some t => <[posixpath.join dst "themes" := t]> ds
                     | None => ds
                     end in
           let fs := match files w !! posixpath.join src "config" with
                     | Some c => <[posixpath.join dst "config" := c]> (files w)
                     | None => files w
                     end in
           (inr tt, World (cwd w) ds fs (presenters w))
       end.

Definition load (w : world) (p : string) : exn + Config.t :=
  match files w !! p with
  | Some c => inr c
  | None => inl (Exn (OtherError "IOError") [p])
  end.

(** The presenter named by the hint, else by the configuration, else the
    default one; it must be registered. *)
Definition presenter_resolve (w : world) (r : Repository) (hint : option string)
  : exn + Presenter :=
  let name :=
    match hint, Config.data (config r) !! "presenter" with
    | Some n, _ => n
    | None, Some (VStr n) => n
    | None, _ => "default"
    end in
  if bool_decide (name ∈ presenters w) then inr {| presenter_name := name |}
  else inl (Exn PresenterNotFoundError [name]).

(** A presenter that builds where it is told, in [/tmp/out] otherwise, and
    in a place of its own when a second argument asks for isolation. *)
Definition presenter_build (p : Presenter) (args : list value) (w : world)
  : (exn + string) * world :=
  match args with
  | [VNone] => (inr "/tmp/out", w)
  | [VStr out] => (inr out, w)
  | [VNone; VBool true] => (inr "/tmp/venv/out", w)
  | [VStr out; VBool true] => (inr (posixpath.join "/tmp/venv" out), w)
  | [VNone; VBool false] => (inr "/tmp/out", w)
  | [VStr out; VBool false] => (inr out, w)
  | _ => (inl (Exn TypeError ["build()"]), w)
  end.

#[global] Instance host : Host world := {|
  os_getcwd := cwd;
  os_path_isdir := isdir;
  os_path_exists := exists_;
  os_listdir := listdir;
  os_chdir := chdir;
  shutil_copytree := copytree;
  subprocess_call := λ _ _ w, (inr 0%Z, w);
  repr := λ s, "'" +:+ s +:+ "'";
  Config_load := load;
  Presenter_resolve := presenter_resolve;
  Presenter_build := presenter_build;
  default_template := "default";
  resolve_template := λ _ t, inr (posixpath.join "/usr/share/gitpress/templates" t);
  building_build := λ d w, (inr (posixpath.join d "_site"), w);
  TCPServer := λ _ _ w, (inr tt, w)
|}.

Definition template_config : Config.t :=
  Config.Build {[ "theme" := VStr "default" ]}.

(** A host with the bundled template and nothing else. *)
Definition fresh : world :=
  World "/home/u/site"
    {[ "/home/u/site" := [];
       "/home/u/site/_site" := [];
       "/usr/share/gitpress/templates/default" := ["config"; "themes"];
       "/usr/share/gitpress/templates/default/themes" := ["default"; "dark"] ]}
    {[ "/usr/share/gitpress/templates/default/config" := template_config ]}
    ["default"].

(** The same host with a repository under [.gitpress]. *)
Definition installed : world :=
  World "/home/u/site"
    (<[ "/home/u/site/.gitpress" := ["config"; "themes"] ]>
       (<[ "/home/u/site/.gitpress/themes" := ["default"; "dark"] ]> (dirs fresh)))
    (<[ "/home/u/site/.gitpress/config" := template_config ]> (files fresh))
    ["default"].

(** A host where the configuration file of [.gitpress] is a directory. *)
Definition broken : world :=
  World "/home/u/site"
    (<[ "/home/u/site/.gitpress" := ["config"] ]>
       (<[ "/home/u/site/.gitpress/config" := [] ]> (dirs fresh)))
    (files fresh)
    ["default"].

(** A host whose repository has no themes directory. *)
Definition bare : world :=
  World "/home/u/site"
    (<[ "/home/u/site/.gitpress" := ["config"] ]> (dirs fresh))
    (<[ "/home/u/site/.gitpress/config" := template_config ]> (files fresh))
    ["default"].

(** A host whose working directory is a repository itself. *)
Definition here : world :=
  World "/home/u/site/.gitpress"
    {[ "." := ["config"; "themes"]; "./themes" := ["default"] ]}
    {[ "./config" := template_config ]}
    ["default"].

(** A host with a repository at [b/c] below the working directory, known by
    its relative and by its absolute name. *)
Definition nested : world :=
  World "/home/u/site"
    (<[ "b/c" := ["config"] ]>
       (<[ "/home/u/site/b/c" := ["config"] ]> (dirs fresh)))
    (<[ "b/c/config" := template_config ]>
       (<[ "/home/u/site/b/c/config" := template_config ]> (files fresh)))
    ["default"].

Definition start (w : world) : state world := State w [].

(** The repository of [installed]. *)
Definition repo : Repository :=
  {| directory := "/home/u/site/.gitpress";
     content_directory := "/home/u/site";
     config := template_config;
     presenter := Some {| presenter_name := "default" |} |}.

(** A repository that already requires the plugin [x], with an option. *)
Definition repo_with_x : Repository :=
  with_config repo
    (Config.Build
       {[ "plugins" := VDict {[ "x" := VDict {[ "version" := VStr "1" ]} ]} ]}).

End Toy.

(** ** A host on which chosen calls fail *)

Module Faulty.

(** The names of the calls that fail, and the working directory. *)
Record world := World { faults : list string; cwd : string }.

Definition fails (w : world) (name : string) : bool :=
  bool_decide (name ∈ faults w).

Definition attempt {A} (w : world) (name : string) (e : exn) (a : A) : exn + A :=
  if fails w name then inl e else inr a.

#[global] Instance host : Host world := {|
  os_getcwd := cwd;
  os_path_isdir := λ w _, negb (fails w "isdir");
  os_path_exists := λ w _, negb (fails w "exists");
  os_listdir := λ w p, attempt w "listdir" (Exn OSError [p]) ["default"; "dark"];
  os_chdir := λ d w,
    if fails w "chdir" then (inl (Exn OSError [d]), w)
    else (inr tt, World (faults w) d);
  shutil_copytree := λ src dst w, (attempt w "copytree" (Exn OSError [dst]) tt, w);
  subprocess_call := λ _ _ w, (inr (if fails w "git" then 128%Z else 0%Z), w);
  repr := λ s, "'" +:+ s +:+ "'";
  Config_load := λ w p,
    attempt w "config" (Exn (OtherError "ValueError") [p]) (Config.Build ∅);
  Presenter_resolve := λ w _ hint,
    attempt w "presenter" (Exn PresenterNotFoundError [default "default" hint])
      {| presenter_name := default "default" hint |};
  Presenter_build := λ p args w,
    (attempt w "presenter.build" (Exn (OtherError "BuildError") [presenter_name p])
       "/tmp/out", w);
  default_template := "default";
  resolve_template := λ w t,
    attempt w "template" (Exn (OtherError "TemplateNotFoundError") [t])
      (posixpath.join "/usr/share/gitpress/templates" t);
  building_build := λ d w,
    (attempt w "build" (Exn (OtherError "BuildError") [d]) (posixpath.join d "_site"), w);
  TCPServer := λ host port w,
    (attempt w "bind" (Exn (OtherError "socket.error") ["Address already in use"]) tt, w)
|}.

Definition start (faults : list string) : state world :=
  State (World faults "/srv/site") [].

(** A repository of this host. *)
Definition repo : Repository :=
  {| directory := "/srv/site/.gitpress";
     content_directory := "/srv/site";
     config := Config.Build ∅;
     presenter := Some {| presenter_name := "default" |} |}.

End Faulty.

(** The state of the small host after [init] with every argument omitted. *)
Definition after_init : state Toy.world :=
  (Repo.init tt None None None (Toy.start Toy.fresh)).2.

(** The mapping of plugins a repository stores: empty when the key is
    missing or does not hold a mapping. *)
Definition stored_plugins (self : Repository) : gmap string value :=
  match Config.data (config self) !! "plugins" with
  | Some (VDict d) => d
  | _ => ∅
  end.

(** The [plugins] key is missing or holds a mapping. *)
Definition plugins_well_formed (self : Repository) : Prop :=
  match Config.data (config self) !! "plugins" with
  | Some (VDict _) | None => True
  | Some _ => False
  end.

(** [self'] is [self] but for what its configuration holds under [key]. *)
Definition unchanged_except (key : string) (self self' : Repository) : Prop :=
  directory self' = directory self
  ∧ content_directory self' = content_directory self
  ∧ presenter self' = presenter self
  ∧ ∀ k, k ≠ key → Config.data (config self') !! k = Config.data (config self) !! k.

(** A configuration whose [plugins] key does not hold a mapping. *)
Definition malformed_config : Config.t :=
  Config.Build {[ "plugins" := VStr "markdown"; "theme" := VStr "default" ]}.

(** * Properties *)

(** ** Paths *)

Section paths.
Import posixpath.

Lemma startswith_slash s :
  startswith s "/" = true ↔ ∃ s', s = String "/" s'.
Proof.
  destruct s as [|a s]; simpl.
  - split; [done | by intros [? ?]].
  - rewrite andb_true_r. destruct (Ascii.eqb_spec a "/") as [->|Hne].
    + split; eauto.
    + split; [done | intros [? ?]; congruence].
Qed.

Lemma startswith_slash_false s :
  startswith s "/" = false ↔ ∀ s', s ≠ String "/" s'.
Proof.
  rewrite <- not_true_iff_false, startswith_slash.
  split; [intros H s' ->; apply H; eauto | intros H [s' ->]; by apply (H s')].
Qed.

Lemma length_append a b :
  String.length (a +:+ b) = (String.length a + String.length b)%nat.
Proof. induction a as [|x a IH]; simpl; [done|]. by rewrite IH. Qed.

Lemma join_absolute a b : isabs b = true → join a b = b.
Proof. unfold isabs, join. by intros ->. Qed.

Lemma isabs_app a b : isabs a = true → isabs (a +:+ b) = true.
Proof.
  unfold isabs. rewrite !startswith_slash. intros [s ->]. simpl. eauto.
Qed.

Lemma join_isabs a b : isabs a = true → isabs (join a b) = true.
Proof.
  intros Ha. unfold join.
  destruct (startswith b "/") eqn:Hb; [done|].
  destruct (_ || _); by apply isabs_app.
Qed.

Lemma isabs_join_relative a b :
  isabs b = false → a ≠ "" → isabs (join a b) = isabs a.
Proof.
  unfold isabs, join. intros -> Ha.
  destruct a as [|x a]; [done|].
  by destruct (_ || _).
Qed.

(** *** [split] and [join] of components *)

Lemma split_slashfree s : Forall (λ x, slashfree x = true) (split "/" s).
Proof.
  induction s as [|a s IH]; simpl; [by constructor|].
  destruct (Ascii.eqb a "/") eqn:Ha; [by constructor|].
  destruct (split "/" s) as [|h t]; inversion_clear IH; constructor;
    simpl; rewrite ?Ha; auto.
Qed.

Lemma split_single x : slashfree x = true → split "/" x = [x].
Proof.
  induction x as [|a x IH]; simpl; [done|].
  intros [Ha Hx]%andb_true_iff. apply negb_true_iff in Ha.
  by rewrite Ha, IH.
Qed.

Lemma split_app x s :
  slashfree x = true → split "/" (x +:+ String "/" s) = x :: split "/" s.
Proof.
  induction x as [|a x IH]; simpl; [done|].
  intros [Ha Hx]%andb_true_iff. apply negb_true_iff in Ha.
  by rewrite Ha, IH.
Qed.

Lemma split_concat l :
  l ≠ [] → Forall (λ x, slashfree x = true) l →
  split "/" (String.concat "/" l) = l.
Proof.
  induction l as [|x l IH]; [done|]. intros _ Hl.
  inversion_clear Hl as [|? ? Hx Hl']. simpl.
  destruct l as [|y l]; [by apply split_single|].
  change (x ++ "/" ++ String.concat "/" (y :: l))%string
    with (x +:+ String "/" (String.concat "/" (y :: l))).
  rewrite split_app by done. f_equal. by apply IH.
Qed.

(** *** Normal forms *)

Lemma proper_follows ini acc c : proper c → follows ini acc c.
Proof. by left. Qed.

Lemma follows_slashfree ini acc c : follows ini acc c → slashfree c = true.
Proof. intros [(_ & _ & _ & ?)|(-> & _)]; done. Qed.

Lemma follows_head ini acc c :
  follows ini acc c → c ≠ "" ∧ startswith c "/" = false.
Proof.
  intros [(Hc & _ & _ & Hs)|(-> & _)]; [|done].
  split; [done|]. destruct c as [|a c]; [done|].
  simpl in *. apply andb_true_iff in Hs as [Ha _].
  apply negb_true_iff in Ha. by rewrite Ha.
Qed.

Lemma normal_nil ini : normal ini [].
Proof. intros acc c l' H. by destruct acc. Qed.

Lemma normal_prefix ini l1 l2 : normal ini (l1 ++ l2) → normal ini l1.
Proof.
  intros H acc c l' ->. apply (H acc c (l' ++ l2)%list).
  by rewrite <- app_assoc.
Qed.

Lemma normal_at ini acc c l : normal ini (acc ++ c :: l) → follows ini acc c.
Proof. intros H. by apply (H acc c l). Qed.

Lemma normal_snoc ini acc c :
  normal ini acc → follows ini acc c → normal ini (acc ++ [c]).
Proof.
  intros Hacc Hc a x l' Heq.
  destruct l' as [|y l' _] using rev_ind.
  - apply app_inj_tail in Heq as [-> ->]. done.
  - rewrite app_comm_cons, app_assoc in Heq.
    apply app_inj_tail in Heq as [-> _]. by apply (Hacc a x l').
Qed.

Lemma normal_slashfree ini l :
  normal ini l → Forall (λ x, slashfree x = true) l.
Proof.
  intros H. apply Forall_forall. intros x Hx.
  apply list_elem_of_split in Hx as (l1 & l2 & ->).
  eapply follows_slashfree, (H l1 x l2). done.
Qed.

Lemma last_dots (acc : list string) :
  acc ≠ [] → Forall (λ x, x = "..") acc → List.last acc "" = "..".
Proof.
  intros Hne Hall. destruct acc as [|y acc _] using rev_ind; [done|].
  rewrite last_last. apply Forall_app in Hall as [_ Hy]. by inversion Hy.
Qed.

(** *** The loop of [normpath] *)

Lemma step_skip ini acc c :
  c = "" ∨ c = "." → normpath_step ini acc c = acc.
Proof. by intros [-> | ->]. Qed.

Lemma step_follows ini acc c :
  follows ini acc c → normpath_step ini acc c = (acc ++ [c])%list.
Proof.
  unfold normpath_step. intros [(H1 & H2 & H3 & _)|(-> & -> & Hall)].
  - apply String.eqb_neq in H1, H2, H3. by rewrite H1, H2, H3.
  - simpl. case_bool_decide as Hacc; [done|]. simpl.
    by rewrite (last_dots acc Hacc Hall).
Qed.

Lemma step_normal ini acc c :
  slashfree c = true → normal ini acc → normal ini (normpath_step ini acc c).
Proof.
  intros Hc Hacc. unfold normpath_step.
  destruct (String.eqb_spec c "") as [->|H1]; [done|].
  destruct (String.eqb_spec c ".") as [->|H2]; [done|].
  destruct (String.eqb_spec c "..") as [->|H3]; simpl.
  - case_bool_decide as Hnil; simpl.
    + subst acc. destruct (Nat.eqb_spec ini 0) as [->|Hini]; simpl; [|done].
      apply (normal_snoc 0 [] ".."); [done|]. right. by repeat split.
    + rewrite andb_false_r. simpl.
      destruct (String.eqb_spec (List.last acc "") "..") as [Hlast|Hlast].
      * apply normal_snoc; [done|].
        destruct (@exists_last _ acc Hnil) as (acc' & y & ->).
        rewrite last_last in Hlast. subst y.
        destruct (normal_at _ _ _ _ Hacc) as [(_ & _ & ? & _)|(_ & -> & Hall)];
          [done|].
        right. repeat split; [done..|].
        apply Forall_app. split; [done|]. by constructor.
      * destruct (@exists_last _ acc Hnil) as (acc' & y & ->).
        rewrite removelast_last. by apply normal_prefix in Hacc.
  - apply normal_snoc; [done|]. left. by repeat split.
Qed.

Lemma fold_normal ini l acc :
  Forall (λ x, slashfree x = true) l → normal ini acc →
  normal ini (fold_left (normpath_step ini) l acc).
Proof.
  intros Hl. revert acc. induction Hl as [|c l Hc _ IH]; intros acc Hacc; [done|].
  simpl. by apply IH, step_normal.
Qed.

Lemma fold_fixed ini l acc :
  normal ini (acc ++ l) → fold_left (normpath_step ini) l acc = (acc ++ l)%list.
Proof.
  revert acc. induction l as [|c l IH]; intros acc H; simpl.
  - by rewrite app_nil_r.
  - rewrite (step_follows ini acc c) by (by eapply normal_at).
    rewrite IH; rewrite <- app_assoc; done.
Qed.

Lemma fold_skip_empty ini l acc :
  fold_left (normpath_step ini) ("" :: l) acc = fold_left (normpath_step ini) l acc.
Proof. done. Qed.

Lemma normpath_render p :
  p ≠ "" →
  normpath p =
    render (initial_slashes p)
      (fold_left (normpath_step (initial_slashes p)) (split "/" p) []).
Proof. intros Hp%String.eqb_neq. unfold normpath. by rewrite Hp. Qed.

Lemma normpath_normal p :
  normal (initial_slashes p)
    (fold_left (normpath_step (initial_slashes p)) (split "/" p) []).
Proof. apply fold_normal; [apply split_slashfree | apply normal_nil]. Qed.

Lemma initial_slashes_le p : (initial_slashes p ≤ 2)%nat.
Proof. unfold initial_slashes. repeat case_match; lia. Qed.

Lemma concat_head ini x l :
  normal ini (x :: l) →
  ∃ a s, String.concat "/" (x :: l) = String a s ∧ a ≠ "/"%char.
Proof.
  intros H. destruct (follows_head ini [] x) as [Hx Hs]; [by apply (H [] x l)|].
  destruct x as [|a x]; [done|]. exists a.
  assert (a ≠ "/"%char) as Ha.
  { intros ->. by rewrite (proj2 (startswith_slash (String "/" x))) in Hs by eauto. }
  simpl. destruct l; eauto.
Qed.

(** A rendered normal form is a fixed point of [normpath]. *)
Lemma normpath_of_render ini comps :
  (ini ≤ 2)%nat → normal ini comps → normpath (render ini comps) = render ini comps.
Proof.
  intros Hini Hn.
  assert (∀ l, normal ini l → fold_left (normpath_step ini) l [] = l) as Hfix.
  { intros l Hl. by rewrite fold_fixed. }
  destruct comps as [|x l].
  - destruct ini as [|[|[|?]]]; [done..|lia].
  - destruct (concat_head _ _ _ Hn) as (a & s & Hbody & Ha).
    pose proof (split_concat (x :: l) ltac:(done) (normal_slashfree _ _ Hn)) as Hsplit.
    apply Ascii.eqb_neq in Ha.
    destruct ini as [|[|[|?]]]; [| | |lia]; unfold render; simpl Nat.eqb; cbv iota.
    + rewrite Hbody. change (String.eqb (String a s) "") with false. cbv iota.
      rewrite <- Hbody. unfold normpath.
      rewrite Hbody at 1. change (String.eqb (String a s) "") with false. cbv iota.
      assert (initial_slashes (String.concat "/" (x :: l)) = 0) as ->.
      { rewrite Hbody. unfold initial_slashes. simpl. by rewrite Ha. }
      rewrite Hsplit, Hfix by done. simpl Nat.eqb. cbv iota.
      rewrite Hbody at 1. change (String.eqb (String a s) "") with false. done.
    + change (str_repeat "/" 1 +:+ String.concat "/" (x :: l))
        with (String "/" (String.concat "/" (x :: l))).
      change (String.eqb (String "/" (String.concat "/" (x :: l))) "") with false.
      cbv iota. unfold normpath.
      change (String.eqb (String "/" (String.concat "/" (x :: l))) "") with false.
      cbv iota.
      assert (initial_slashes (String "/" (String.concat "/" (x :: l))) = 1) as ->.
      { rewrite Hbody. unfold initial_slashes. simpl. by rewrite Ha. }
      change (split "/" (String "/" (String.concat "/" (x :: l))))
        with ("" :: split "/" (String.concat "/" (x :: l))).
      rewrite fold_skip_empty, Hsplit.
      rewrite Hfix by done. done.
    + change (str_repeat "/" 2 +:+ String.concat "/" (x :: l))
        with (String "/" (String "/" (String.concat "/" (x :: l)))).
      change (String.eqb (String "/" (String "/" (String.concat "/" (x :: l)))) "")
        with false.
      cbv iota. unfold normpath.
      change (String.eqb (String "/" (String "/" (String.concat "/" (x :: l)))) "")
        with false.
      cbv iota.
      assert (initial_slashes (String "/" (String "/" (String.concat "/" (x :: l)))) = 2)
        as ->.
      { rewrite Hbody. unfold initial_slashes. simpl. by rewrite Ha. }
      change (split "/" (String "/" (String "/" (String.concat "/" (x :: l)))))
        with ("" :: "" :: split "/" (String.concat "/" (x :: l))).
      rewrite !fold_skip_empty, Hsplit.
      rewrite Hfix by done. done.
Qed.

(** [normpath] is idempotent. *)
Lemma normpath_idempotent p : normpath (normpath p) = normpath p.
Proof.
  destruct (decide (p = "")) as [->|Hp]; [done|].
  rewrite (normpath_render p Hp).
  apply normpath_of_render; [apply initial_slashes_le | apply normpath_normal].
Qed.

Lemma initial_slashes_absolute p :
  isabs p = true → initial_slashes p = 1 ∨ initial_slashes p = 2.
Proof.
  unfold isabs, initial_slashes. intros ->. destruct (_ && _); auto.
Qed.

Lemma render_isabs ini comps :
  ini = 1 ∨ ini = 2 → isabs (render ini comps) = true.
Proof. intros [-> | ->]; done. Qed.

Lemma normpath_isabs p : isabs p = true → isabs (normpath p) = true.
Proof.
  intros Hp. rewrite normpath_render by (by intros ->).
  by apply render_isabs, initial_slashes_absolute.
Qed.

(** *** [abspath] *)

Lemma abspath_isabs cwd p : isabs cwd = true → isabs (abspath cwd p) = true.
Proof.
  intros Hcwd. unfold abspath. destruct (isabs p) eqn:Hp.
  - by apply normpath_isabs.
  - by apply normpath_isabs, join_isabs.
Qed.

Lemma abspath_normalized cwd p : normpath (abspath cwd p) = abspath cwd p.
Proof. unfold abspath. destruct (isabs p); apply normpath_idempotent. Qed.

Lemma abspath_idempotent cwd p :
  isabs cwd = true → abspath cwd (abspath cwd p) = abspath cwd p.
Proof.
  intros Hcwd. unfold abspath at 1.
  rewrite abspath_isabs by done. apply abspath_normalized.
Qed.

End paths.

(** ** [Repository.resolve] *)

Section resolve_properties.
Import posixpath.

Lemma resolve_both cwd c r :
  Repo.resolve cwd (Some c) r =
    (abspath cwd c, join (abspath cwd c) (default Repo.default_directory r)).
Proof. by destruct r. Qed.

Lemma resolve_repo_only cwd r :
  Repo.resolve cwd None (Some r) = (join r "..", r).
Proof. done. Qed.

Lemma resolve_fixed cwd c r :
  isabs cwd = true →
  Repo.resolve_again cwd (abspath cwd c, join (abspath cwd c) r)
  = (abspath cwd c, join (abspath cwd c) r).
Proof.
  intros Hcwd. unfold Repo.resolve_again. rewrite resolve_both. simpl.
  rewrite abspath_idempotent by done.
  by rewrite join_absolute by (by apply join_isabs, abspath_isabs).
Qed.

End resolve_properties.

(** C4, as stated, fails: with only a relative [repo_directory] given, the
    content directory returned is the relative, unnormalized path
    [repo_directory/..]. *)
Lemma resolve_content_relative :
  Repo.resolve "/home/u" None (Some "site/.gitpress") = ("site/.gitpress/..", "site/.gitpress")
  ∧ posixpath.isabs (Repo.resolve "/home/u" None (Some "site/.gitpress")).1 = false
  ∧ (Repo.resolve "/home/u" None (Some "site/.gitpress")).1
    ≠ posixpath.abspath "/home/u" (posixpath.join "site/.gitpress" "..").
Proof. by vm_compute. Qed.

(** C4, amended: under an absolute working directory, the content directory
    returned by [resolve] is an absolute, normalized path whenever
    [content_directory] is given or [repo_directory] is omitted; when
    [repo_directory] is given and [content_directory] is omitted, the content
    directory is [join(repo_directory, '..')] as it stands (absolute exactly
    when [repo_directory] is) and [repo_directory] is returned unchanged. *)
Theorem resolve_content_directory (cwd : string) (c r : option string) :
  posixpath.isabs cwd = true →
  (is_Some c ∨ r = None →
     posixpath.isabs (Repo.resolve cwd c r).1 = true
     ∧ posixpath.normpath (Repo.resolve cwd c r).1 = (Repo.resolve cwd c r).1)
  ∧ (∀ r', c = None → r = Some r' →
       Repo.resolve cwd c r = (posixpath.join r' "..", r')
       ∧ posixpath.isabs (posixpath.join r' "..") = posixpath.isabs r').
Proof.
  intros Hcwd. split.
  - intros Hcr.
    assert (∃ c' r', Repo.resolve cwd c r
                     = (posixpath.abspath cwd c', posixpath.join (posixpath.abspath cwd c') r'))
      as (c' & r' & ->).
    { destruct c as [c|].
      - rewrite resolve_both. eauto.
      - destruct Hcr as [[? [=]]| ->]. by eexists _, _. }
    simpl. split; [by apply abspath_isabs | apply abspath_normalized].
  - intros r' -> ->. split; [done|].
    destruct r' as [|a r']; [done|].
    by apply isabs_join_relative.
Qed.

Lemma resolve_content_directory_witness :
  (posixpath.isabs (Repo.resolve "/home/u" (Some "site") None).1 = true
   ∧ posixpath.normpath (Repo.resolve "/home/u" (Some "site") None).1
     = (Repo.resolve "/home/u" (Some "site") None).1)
  ∧ Repo.resolve "/home/u" None (Some "/srv/site/.gitpress")
    = ("/srv/site/.gitpress/..", "/srv/site/.gitpress").
Proof.
  split.
  - destruct (resolve_content_directory "/home/u" (Some "site") None eq_refl) as [H _].
    apply H. left. by eexists.
  - destruct (resolve_content_directory "/home/u" None (Some "/srv/site/.gitpress")
                eq_refl) as [_ H].
    apply (H _ eq_refl eq_refl).
Defined.

(** C7: with only a relative [repo_directory] of more than one component
    given, [resolve] applied to its own output moves the repository, also
    when both results are normalized to absolute paths. *)
Lemma resolve_not_idempotent :
  Repo.resolve_again "/w" (Repo.resolve "/w" None (Some "b/c"))
  ≠ Repo.resolve "/w" None (Some "b/c")
  ∧ Repo.normalized "/w" (Repo.resolve_again "/w" (Repo.resolve "/w" None (Some "b/c")))
    ≠ Repo.normalized "/w" (Repo.resolve "/w" None (Some "b/c")).
Proof. by vm_compute. Qed.

(** [init] resolves its arguments and the constructor resolves the result
    again: where a repository stands at [b/c], which the constructor finds
    when it is given that directory, the check of [init] for an existing
    repository looks at [b/b/c], lets the location pass as free, and [init]
    ends in the error of the copy onto the existing directory. *)
Lemma init_relative_repository :
  (∃ repo, Repo.new (Some "b/c") None None (Toy.start Toy.nested)
           = (Returns repo, Toy.start Toy.nested))
  ∧ (Repo.new (Some "b/c") (Some "b/c/..") None (Toy.start Toy.nested)).1
    = Raises (Exn RepositoryNotFoundError ["/home/u/site/b/b/c"])
  ∧ (Repo.init tt None (Some "b/c") None (Toy.start Toy.nested)).1
    = Raises (Exn OSError ["b/c"]).
Proof.
  split; [eexists; vm_compute; reflexivity|]. split; vm_compute; reflexivity.
Qed.

(** X27: under an absolute working directory, [resolve] applied to its own
    output returns that output again whenever [content_directory] is given
    or [repo_directory] is omitted; when only an absolute [repo_directory]
    is given, the two results agree once both are normalized to absolute
    paths. *)
Theorem resolve_idempotent (cwd : string) (c r : option string) :
  posixpath.isabs cwd = true →
  (is_Some c ∨ r = None →
     Repo.resolve_again cwd (Repo.resolve cwd c r) = Repo.resolve cwd c r)
  ∧ (∀ r', c = None → r = Some r' → posixpath.isabs r' = true →
       Repo.normalized cwd (Repo.resolve_again cwd (Repo.resolve cwd c r))
       = Repo.normalized cwd (Repo.resolve cwd c r)).
Proof.
  intros Hcwd. split.
  - intros Hcr. destruct c as [c|].
    + rewrite resolve_both. by apply resolve_fixed.
    + destruct Hcr as [[? [=]]| ->]. by apply (resolve_fixed cwd "." Repo.default_directory).
  - intros r' -> -> Hr'. rewrite resolve_repo_only.
    unfold Repo.resolve_again, Repo.normalized. rewrite resolve_both. simpl.
    rewrite (join_absolute _ r') by done.
    by rewrite abspath_idempotent.
Qed.

Lemma resolve_idempotent_witness :
  Repo.resolve_again "/w" (Repo.resolve "/w" (Some "site") (Some "meta"))
  = Repo.resolve "/w" (Some "site") (Some "meta")
  ∧ Repo.normalized "/w" (Repo.resolve_again "/w" (Repo.resolve "/w" None (Some "/srv/b/c")))
    = Repo.normalized "/w" (Repo.resolve "/w" None (Some "/srv/b/c")).
Proof.
  split.
  - destruct (resolve_idempotent "/w" (Some "site") (Some "meta") eq_refl) as [H _].
    apply H. left. by eexists.
  - destruct (resolve_idempotent "/w" None (Some "/srv/b/c") eq_refl) as [_ H].
    apply (H _ eq_refl eq_refl eq_refl).
Defined.

(** ** Construction and [Repository.init] *)

Section init_properties.
Context {W : Type} `{!Host W}.

Lemma init_unfold {S : Type} (self : S) c r t (s : state W) :
  Repo.init self c r t s =
    match Repo.init_probe (Repo.resolve (os_getcwd (world s)) c r).1
            (Repo.resolve (os_getcwd (world s)) c r).2 s with
    | (Returns _, s') =>
        Repo.init_create (default default_template t)
          (Repo.resolve (os_getcwd (world s)) c r).1
          (Repo.resolve (os_getcwd (world s)) c r).2 s'
    | (Raises e, s') => (Raises e, s')
    | (Blocks, s') => (Blocks, s')
    end.
Proof.
  unfold Repo.init, mbind, Py_bind, read. simpl.
  by destruct (Repo.resolve _ c r).
Qed.

Lemma init_probe_unfold c r (s : state W) :
  Repo.init_probe c r s =
    match Repo.new (Some r) (Some c) None s with
    | (Returns _, s') =>
        (Raises (Exn RepositoryAlreadyExistsError [c; r]), s')
    | (Raises e, s') =>
        if catches [RepositoryNotFoundError; InvalidRepositoryError;
                    PresenterNotFoundError] e
        then (Returns tt, s') else (Raises e, s')
    | (Blocks, s') => (Blocks, s')
    end.
Proof.
  unfold Repo.init_probe, try_pass, mbind, Py_bind, raise.
  by destruct (Repo.new _ _ _ s) as [[?|?|] ?].
Qed.

End init_properties.

(** C1: the existence check of [init] constructs a [Repository] at the
    resolved location; when the construction succeeds [init] fails with
    [RepositoryAlreadyExistsError]; when it fails with
    [RepositoryNotFoundError], [InvalidRepositoryError] or
    [PresenterNotFoundError] the error is dropped and [init] goes on to
    create the repository; any other error of the construction is the error
    of [init]. *)
Theorem init_probe_triage {W : Type} `{!Host W} {S : Type} (self : S)
    (c r t : option string) (s : state W) :
  let cr := Repo.resolve (os_getcwd (world s)) c r in
  let probe := Repo.new (Some cr.2) (Some cr.1) None s in
  (∀ repo s', probe = (Returns repo, s') →
     Repo.init self c r t s
     = (Raises (Exn RepositoryAlreadyExistsError [cr.1; cr.2]), s'))
  ∧ (∀ e s', probe = (Raises e, s') →
       exn_cls e ∈ [RepositoryNotFoundError; InvalidRepositoryError;
                    PresenterNotFoundError] →
       Repo.init self c r t s
       = Repo.init_create (default default_template t) cr.1 cr.2 s')
  ∧ (∀ e s', probe = (Raises e, s') →
       exn_cls e ∉ [RepositoryNotFoundError; InvalidRepositoryError;
                    PresenterNotFoundError] →
       Repo.init self c r t s = (Raises e, s')).
Proof.
  intros cr probe. subst probe cr.
  repeat split; intros ? s' Hprobe; [|intros Hcls..];
    rewrite init_unfold, init_probe_unfold, Hprobe;
    unfold catches; [done|..]; by case_bool_decide.
Qed.

Lemma init_probe_triage_witness :
  Repo.init tt None None None (Toy.start Toy.installed)
  = (Raises (Exn RepositoryAlreadyExistsError ["/home/u/site"; "/home/u/site/.gitpress"]),
     Toy.start Toy.installed)
  ∧ Repo.init tt None None None (Toy.start Toy.fresh)
    = Repo.init_create "default" "/home/u/site" "/home/u/site/.gitpress"
        (Toy.start Toy.fresh)
  ∧ Repo.init tt None None None (Toy.start Toy.broken)
    = (Raises (Exn (OtherError "IOError") ["/home/u/site/.gitpress/config"]),
       Toy.start Toy.broken).
Proof.
  split; [|split].
  - destruct (init_probe_triage tt None None None (Toy.start Toy.installed))
      as (H & _ & _).
    eapply H. vm_compute. reflexivity.
  - destruct (init_probe_triage tt None None None (Toy.start Toy.fresh))
      as (_ & H & _).
    eapply H; [vm_compute; reflexivity|]. by apply (bool_decide_unpack _).
  - destruct (init_probe_triage tt None None None (Toy.start Toy.broken))
      as (_ & _ & H).
    eapply H; [vm_compute; reflexivity|]. by apply (bool_decide_unpack _).
Defined.

(** C9: the first parameter of [init], named [self], is never used: two
    calls that differ in it only are the same computation, effects and
    result; arguments given by position for the content directory, the
    repository directory and the template therefore land in [self],
    [content_directory] and [repo_directory], and [template] is left at its
    default. *)
Theorem init_ignores_self {W : Type} `{!Host W} :
  (∀ (S1 S2 : Type) (a : S1) (b : S2) (c r t : option string),
     Repo.init a c r t = Repo.init b c r t)
  ∧ (∀ (content repo template : option string) (s : state W),
       Repo.init_positional [content; repo; template] s
       = Repo.init tt repo template None s).
Proof. split; reflexivity. Qed.

(** ** [Repository.build] and [Repository.preview] *)

(** C2: [build] is documented to initiate an isolated build and takes the
    flag [virtualenv], but hands the presenter the output directory only and
    never reads the flag.  On the small host, whose presenter builds
    elsewhere when it is asked for isolation, [build] with the flag set
    returns the path of the plain build, and the [build] of the
    specification, which passes the flag through, another one. *)
Lemma build_drops_isolation_flag :
  (Repo.build Toy.repo None true (Toy.start Toy.installed)).1 = Returns "/tmp/out"
  ∧ (Repo.build_as_specified Toy.repo None true (Toy.start Toy.installed)).1
    = Returns "/tmp/venv/out"
  ∧ log (Repo.build Toy.repo None true (Toy.start Toy.installed)).2
    = [EvPresenterBuild {| presenter_name := "default" |} [VNone]]
  ∧ Repo.build Toy.repo None true (Toy.start Toy.installed)
    ≠ Repo.build_as_specified Toy.repo None true (Toy.start Toy.installed).
Proof.
  split; [|split; [|split]]; [by vm_compute..|].
  intros Heq. apply (f_equal fst) in Heq. vm_compute in Heq. discriminate Heq.
Qed.

(** X29: for a repository with a resolved presenter [build] is one
    call of the presenter's build operation with the optional output
    directory as its only argument, whatever the flag; the path the
    presenter returns is the result, unmodified, and an error of the
    presenter is the error of [build]. *)
Theorem build_delegates {W : Type} `{!Host W} (self : Repository) (p : Presenter)
    (out_directory : option string) (isolate : bool) (s : state W) :
  presenter self = Some p →
  Repo.build self out_directory isolate s
  = call (EvPresenterBuild p [of_opt_str out_directory])
      (Presenter_build p [of_opt_str out_directory]) s
  ∧ (∀ isolate', Repo.build self out_directory isolate' s
                 = Repo.build self out_directory isolate s)
  ∧ (∀ path w, Presenter_build p [of_opt_str out_directory] (world s) = (inr path, w) →
       Repo.build self out_directory isolate s
       = (Returns path,
          State w (log s ++ [EvPresenterBuild p [of_opt_str out_directory]])))
  ∧ (∀ e w, Presenter_build p [of_opt_str out_directory] (world s) = (inl e, w) →
       Repo.build self out_directory isolate s
       = (Raises e,
          State w (log s ++ [EvPresenterBuild p [of_opt_str out_directory]]))).
Proof.
  intros Hp. unfold Repo.build, call. rewrite Hp.
  repeat split; intros ? w Hb; by rewrite Hb.
Qed.

Lemma build_delegates_witness :
  Repo.build Toy.repo None false (Toy.start Toy.installed)
  = (Returns "/tmp/out",
     State Toy.installed [EvPresenterBuild {| presenter_name := "default" |} [VNone]]).
Proof.
  destruct (build_delegates Toy.repo {| presenter_name := "default" |} None false
              (Toy.start Toy.installed) eq_refl) as (_ & _ & H & _).
  apply (H "/tmp/out" Toy.installed). reflexivity.
Defined.



(** ** Themes *)

Section theme_properties.
Context {W : Type} `{!Host W}.

Lemma themes_absent (self : Repository) (s : state W) :
  os_path_isdir (world s) (posixpath.join (directory self) "themes") = false →
  Repo.themes self s = (Returns None, s).
Proof.
  intros H. unfold Repo.themes, Repo.themes_directory, mbind, Py_bind, read.
  cbn beta iota. by rewrite H.
Qed.

Lemma themes_listed (self : Repository) (s : state W) (l : list string) :
  os_path_isdir (world s) (posixpath.join (directory self) "themes") = true →
  os_listdir (world s) (posixpath.join (directory self) "themes") = inr l →
  Repo.themes self s = (Returns (Some l), s).
Proof.
  intros H Hl.
  unfold Repo.themes, Repo.themes_directory, mbind, Py_bind, read, query.
  cbn beta iota. by rewrite H, Hl.
Qed.

(** Without a themes directory the membership test of [use_theme] is a
    test against [None], whatever the theme. *)
Lemma use_theme_themes_absent (self : Repository) (theme : string) (s : state W) :
  os_path_isdir (world s) (posixpath.join (directory self) "themes") = false →
  Repo.use_theme self theme s
  = (Raises (Exn TypeError ["argument of type 'NoneType' is not iterable"]), s).
Proof.
  intros H. unfold Repo.use_theme, mbind, Py_bind. by rewrite themes_absent.
Qed.

(** With a themes directory, a theme that is not in its listing is
    refused with [ThemeNotFoundError]. *)
Lemma use_theme_not_installed (self : Repository) (theme : string) (s : state W)
    (l : list string) :
  os_path_isdir (world s) (posixpath.join (directory self) "themes") = true →
  os_listdir (world s) (posixpath.join (directory self) "themes") = inr l →
  theme ∉ l →
  Repo.use_theme self theme s = (Raises (Exn ThemeNotFoundError [theme]), s).
Proof.
  intros H Hl Hin. unfold Repo.use_theme, mbind, Py_bind.
  rewrite (themes_listed self s l) by done. by rewrite bool_decide_eq_false_2.
Qed.

Lemma ne_str_false v s : ne_str v s = false ↔ v = VStr s.
Proof.
  destruct v; simpl; try (split; [done | intros [=]]).
  rewrite negb_false_iff, String.eqb_eq. split; [by intros -> | by intros [= ->]].
Qed.

End theme_properties.

(** C5: on a repository whose metadata directory has no themes directory,
    [themes()] is [None] and [use_theme] raises [TypeError], not
    [ThemeNotFoundError]. *)
Theorem use_theme_without_themes_directory :
  Repo.themes Toy.repo (Toy.start Toy.bare) = (Returns None, Toy.start Toy.bare)
  ∧ Repo.use_theme Toy.repo "default" (Toy.start Toy.bare)
    = (Raises (Exn TypeError ["argument of type 'NoneType' is not iterable"]),
       Toy.start Toy.bare).
Proof. split; [by apply themes_absent | by apply use_theme_themes_absent]. Qed.

(** C6: for a theme in the listing of the themes directory, [use_theme]
    stores it under the key [theme] and returns [true] when the stored value
    has changed and [false] when the theme was the active one already;
    reading the key afterwards gives the theme. *)
Theorem use_theme_installed {W : Type} `{!Host W} (self : Repository) (theme : string)
    (s : state W) (l : list string) :
  os_path_isdir (world s) (posixpath.join (directory self) "themes") = true →
  os_listdir (world s) (posixpath.join (directory self) "themes") = inr l →
  theme ∈ l →
  ∃ (changed : bool) (self' : Repository),
    Repo.use_theme self theme s = (Returns (changed, self'), s)
    ∧ (changed = false ↔ Config.data (config self) !! "theme" = Some (VStr theme))
    ∧ (changed = true ↔ Config.data (config self) !! "theme" ≠ Some (VStr theme))
    ∧ Config.data (config self') = <["theme" := VStr theme]> (Config.data (config self))
    ∧ Config.get (config self') "theme" VNone None false = inr (VStr theme)
    ∧ directory self' = directory self
    ∧ content_directory self' = content_directory self
    ∧ presenter self' = presenter self.
Proof.
  intros H Hl Hin.
  exists (ne_str (default VNone (Config.data (config self) !! "theme")) theme),
         (with_config self (Config.set (config self) "theme" (VStr theme)).2).
  assert (ne_str (default VNone (Config.data (config self) !! "theme")) theme = false
          ↔ Config.data (config self) !! "theme" = Some (VStr theme)) as Hold.
  { rewrite ne_str_false. destruct (Config.data (config self) !! "theme"); simpl.
    - split; congruence.
    - split; discriminate. }
  split; [|split; [done|split; [|split; [done|split; [|done]]]]].
  - unfold Repo.use_theme, mbind, Py_bind.
    rewrite (themes_listed self s l) by done. by rewrite bool_decide_eq_true_2.
  - rewrite <- Hold. by destruct (ne_str _ _).
  - unfold Config.get. simpl. by rewrite lookup_insert_eq.
Qed.

Lemma use_theme_installed_witness :
  ∃ self',
    Repo.use_theme Toy.repo "dark" (Toy.start Toy.installed)
    = (Returns (true, self'), Toy.start Toy.installed)
    ∧ Config.get (config self') "theme" VNone None false = inr (VStr "dark").
Proof.
  destruct (use_theme_installed Toy.repo "dark" (Toy.start Toy.installed)
              ["default"; "dark"])
    as (changed & self' & Hrun & _ & Hchanged & _ & Hget & _).
  - vm_compute. reflexivity.
  - vm_compute. reflexivity.
  - by apply (bool_decide_unpack _).
  - exists self'. split; [|done].
    assert (changed = true) as Htrue by (apply Hchanged; vm_compute; discriminate).
    by rewrite Htrue in Hrun.
Defined.

(** ** Plugins *)

Section plugin_properties.

Lemma filter_other_names (x : string) (l : list (string * value)) :
  Forall (λ kv, kv.1 ≠ x) l →
  filter (λ p, plugin_name p = x) (requirement <$> l) = [].
Proof.
  induction 1 as [|kv l Hkv _ IH]; [done|].
  rewrite fmap_cons, filter_cons_False; done.
Qed.

(** The requirements of a mapping to which [x] has just been added. *)
Lemma requirements_insert (x : string) (v : value) (d : gmap string value) :
  d !! x = None →
  filter (λ p, plugin_name p = x) (requirement <$> map_to_list (<[x := v]> d))
  = [{| plugin_name := x; plugin_options := v |}].
Proof.
  intros Hx. apply Permutation_singleton_r.
  rewrite (map_to_list_insert d x v Hx), fmap_cons, filter_cons_True by done.
  rewrite filter_other_names; [done|].
  apply Forall_forall. intros [k w] Hin%elem_of_map_to_list. simpl. congruence.
Qed.

Lemma plugins_of (self : Repository) (d : gmap string value) :
  Config.data (config self) !! "plugins" = Some (VDict d) →
  Repo.plugins self = inr (requirement <$> map_to_list d).
Proof. intros H. unfold Repo.plugins, Config.get. by rewrite H. Qed.

Lemma add_plugin_present (self : Repository) (x : string) (d : gmap string value) :
  Config.data (config self) !! "plugins" = Some (VDict d) →
  is_Some (d !! x) →
  Repo.add_plugin self x = (inr false, self).
Proof.
  intros H Hx. unfold Repo.add_plugin, Config.get. rewrite H. simpl.
  by rewrite bool_decide_eq_true_2.
Qed.

(** The mapping [add_plugin] reads: the stored one, or the empty default. *)
Lemma add_plugin_fresh (self : Repository) (x : string) (d : gmap string value) :
  Config.get (config self) "plugins" (VDict ∅) (Some TDict) false = inr (VDict d) →
  d !! x = None →
  Repo.add_plugin self x
  = (inr true,
     with_config self
       (Config.Build (<["plugins" := VDict (<[x := VDict ∅]> d)]>
                        (Config.data (config self))))).
Proof.
  intros H Hx. unfold Repo.add_plugin. rewrite H.
  rewrite bool_decide_eq_false_2; [done|]. rewrite Hx. by intros [? ?].
Qed.

End plugin_properties.

(** C8, as stated, fails: on a repository that requires [x] already, with
    an option, the first [add_plugin("x")] returns [false] as well, and the
    one entry named [x] of [plugins()] keeps its option. *)
Lemma add_plugin_already_present :
  Repo.add_plugin Toy.repo_with_x "x" = (inr false, Toy.repo_with_x)
  ∧ Repo.plugins Toy.repo_with_x
    = inr [{| plugin_name := "x";
              plugin_options := VDict {[ "version" := VStr "1" ]} |}].
Proof.
  split.
  - apply (add_plugin_present _ "x" {[ "x" := VDict {[ "version" := VStr "1" ]} ]});
      [done|]. by rewrite lookup_singleton_eq.
  - rewrite (plugins_of _ {[ "x" := VDict {[ "version" := VStr "1" ]} ]}) by done.
    by rewrite map_to_list_singleton.
Qed.

(** C8, amended: on a repository whose [plugins] key is missing, or holds a
    mapping without [x], [add_plugin(x)] called twice returns [true], then
    [false]; the second call changes nothing; [plugins()] afterwards has
    exactly one entry named [x], stored with empty options. *)
Theorem add_plugin_twice (self : Repository) (x : string) :
  (Config.data (config self) !! "plugins" = None
   ∨ ∃ d, Config.data (config self) !! "plugins" = Some (VDict d) ∧ d !! x = None) →
  ∃ self1 l,
    Repo.add_plugin self x = (inr true, self1)
    ∧ Repo.add_plugin self1 x = (inr false, self1)
    ∧ Repo.plugins self1 = inr l
    ∧ filter (λ p, plugin_name p = x) l
      = [{| plugin_name := x; plugin_options := VDict ∅ |}].
Proof.
  intros Hpre.
  assert (∃ d, Config.get (config self) "plugins" (VDict ∅) (Some TDict) false
               = inr (VDict d) ∧ d !! x = None) as (d & Hget & Hx).
  { unfold Config.get. destruct Hpre as [-> | (d & -> & Hx)]; eauto. }
  eexists _, _. split; [by apply add_plugin_fresh|].
  split; [|split].
  - eapply add_plugin_present; [apply lookup_insert_eq|].
    by rewrite lookup_insert_eq.
  - apply plugins_of. apply lookup_insert_eq.
  - by apply requirements_insert.
Qed.

Lemma add_plugin_twice_witness :
  ∃ self1 l,
    Repo.add_plugin Toy.repo "x" = (inr true, self1)
    ∧ Repo.add_plugin self1 "x" = (inr false, self1)
    ∧ Repo.plugins self1 = inr l
    ∧ filter (λ p, plugin_name p = "x") l
      = [{| plugin_name := "x"; plugin_options := VDict ∅ |}].
Proof.
  apply (add_plugin_twice Toy.repo "x"). left. vm_compute. reflexivity.
Defined.


(** * Further properties of the code *)

(** ** Construction *)

Section new_properties.
Context {W : Type} `{!Host W}.

(** The directories [__init__] works with. *)
Lemma new_unfold (d c p : option string) (s : state W) :
  Repo.new d c p s =
    let cd := Repo.resolve (os_getcwd (world s)) c (Some (default "." d)) in
    let config_file := posixpath.join cd.2 Config.config_file in
    if negb (os_path_isdir (world s) cd.2)
    then (Raises (Exn RepositoryNotFoundError [cd.2]), s)
    else if negb (os_path_exists (world s) config_file)
    then (Raises (Exn InvalidRepositoryError
                    [cd.2; "Config file not found: " +:+ config_file]), s)
    else match Config_load (world s) config_file with
         | inl e => (Raises e, s)
         | inr cfg =>
             match Presenter_resolve (world s)
                     {| directory := cd.2; content_directory := cd.1;
                        config := cfg; presenter := None |} p with
             | inl e => (Raises e, s)
             | inr pr =>
                 (Returns {| directory := cd.2; content_directory := cd.1;
                             config := cfg; presenter := Some pr |}, s)
             end
         end.
Proof.
  unfold Repo.new, Repo.init_resolve_args, mbind, Py_bind, read, query, lift, raise,
    mret, Py_ret.
  cbn beta iota zeta.
  destruct (Repo.resolve _ c _) as [cd1 cd2]. cbn [fst snd].
  destruct (os_path_isdir _ _); [|done]. cbn [negb].
  destruct (os_path_exists _ _); [|done]. cbn [negb].
  destruct (Config_load _ _) as [e|cfg]; [done|].
  by destruct (Presenter_resolve _ _ _).
Qed.

(** Construction reads the host and changes nothing. *)
Lemma new_state (d c p : option string) (s : state W) : (Repo.new d c p s).2 = s.
Proof.
  rewrite new_unfold. cbn zeta. repeat case_match; done.
Qed.

Lemma new_returns_dirs (d c p : option string) (s s' : state W) repo :
  Repo.new d c p s = (Returns repo, s') →
  s' = s
  ∧ (content_directory repo, directory repo)
    = Repo.resolve (os_getcwd (world s)) c (Some (default "." d)).
Proof.
  rewrite new_unfold. cbn zeta.
  destruct (Repo.resolve _ c _) as [cd1 cd2]. cbn [fst snd].
  repeat case_match; try done; by intros [= <- <-].
Qed.

Lemma new_not_blocked (d c p : option string) (s s' : state W) :
  Repo.new d c p s ≠ (Blocks, s').
Proof.
  rewrite new_unfold. cbn zeta. repeat case_match; done.
Qed.

End new_properties.

(** C10: constructed with every argument omitted, a [Repository] takes ['.']
    as its metadata directory and ['./..'], the parent, as its content
    directory: it is ['.'] that must be a directory, ['./config'] that must
    exist and be loaded, and these two directories that the repository
    returned has, not the working directory made absolute and the
    [.gitpress] under it that [resolve] gives when both its arguments are
    omitted.  Whatever its arguments, the constructor replaces an omitted
    directory by ['.'], so the directories of a repository it returns never
    involve the default directory name. *)
Theorem new_default_paths {W : Type} `{!Host W} (s : state W) :
  Repo.new None None None s
  = (if negb (os_path_isdir (world s) ".")
     then (Raises (Exn RepositoryNotFoundError ["."]), s)
     else if negb (os_path_exists (world s) "./config")
     then (Raises (Exn InvalidRepositoryError
                     ["."; "Config file not found: ./config"]), s)
     else match Config_load (world s) "./config" with
          | inl e => (Raises e, s)
          | inr cfg =>
              match Presenter_resolve (world s)
                      {| directory := "."; content_directory := "./..";
                         config := cfg; presenter := None |} None with
              | inl e => (Raises e, s)
              | inr pr =>
                  (Returns {| directory := "."; content_directory := "./..";
                              config := cfg; presenter := Some pr |}, s)
              end
          end)
  ∧ Repo.resolve (os_getcwd (world s)) None None
    = (posixpath.abspath (os_getcwd (world s)) ".",
       posixpath.join (posixpath.abspath (os_getcwd (world s)) ".") ".gitpress")
  ∧ Repo.resolve (os_getcwd (world s)) None None ≠ ("./..", ".")
  ∧ (∀ (dir content hint : option string) repo s',
       Repo.new dir content hint s = (Returns repo, s') →
       (content_directory repo, directory repo)
       = match content with
         | None => (posixpath.join (default "." dir) "..", default "." dir)
         | Some c =>
             (posixpath.abspath (os_getcwd (world s)) c,
              posixpath.join (posixpath.abspath (os_getcwd (world s)) c)
                (default "." dir))
         end).
Proof.
  split; [by rewrite new_unfold|]. split; [done|]. split.
  - intros Heq. apply (f_equal (λ p, String.length p.2)) in Heq. simpl in Heq.
    revert Heq. unfold posixpath.join. simpl.
    destruct (_ || _); rewrite ?length_append; simpl; lia.
  - intros dir content hint repo s' Hnew.
    apply new_returns_dirs in Hnew as [_ ->]. by destruct content.
Qed.

Lemma new_default_paths_witness :
  ∃ repo,
    Repo.new None None None (Toy.start Toy.here) = (Returns repo, Toy.start Toy.here)
    ∧ (content_directory repo, directory repo) = ("./..", ".").
Proof.
  eexists. split; [vm_compute; reflexivity|].
  destruct (new_default_paths (Toy.start Toy.here)) as (_ & _ & _ & H).
  eapply (H None None None _ (Toy.start Toy.here)). vm_compute. reflexivity.
Defined.

(** X1: when the resolved metadata directory is not a directory,
    construction fails with [RepositoryNotFoundError] carrying that
    directory, whatever the configuration file and the presenter, and the
    host is left as it was. *)
Theorem new_missing_directory {W : Type} `{!Host W} (d c p : option string)
    (s : state W) :
  os_path_isdir (world s)
    (Repo.resolve (os_getcwd (world s)) c (Some (default "." d))).2 = false →
  Repo.new d c p s
  = (Raises (Exn RepositoryNotFoundError
               [(Repo.resolve (os_getcwd (world s)) c (Some (default "." d))).2]), s).
Proof. intros H. rewrite new_unfold. cbn zeta. by rewrite H. Qed.

Lemma new_missing_directory_witness :
  Repo.new (Some "meta") (Some "/srv/site") None (Faulty.start ["isdir"])
  = (Raises (Exn RepositoryNotFoundError ["/srv/site/meta"]), Faulty.start ["isdir"]).
Proof.
  apply (new_missing_directory (Some "meta") (Some "/srv/site") None
           (Faulty.start ["isdir"])).
  reflexivity.
Defined.

(** X2: when the metadata directory exists and holds no configuration
    file, construction fails with [InvalidRepositoryError] carrying the
    directory and the message naming the missing file; the configuration is
    not loaded and no presenter is resolved. *)
Theorem new_missing_config {W : Type} `{!Host W} (d c p : option string)
    (s : state W) :
  let dir := (Repo.resolve (os_getcwd (world s)) c (Some (default "." d))).2 in
  os_path_isdir (world s) dir = true →
  os_path_exists (world s) (posixpath.join dir "config") = false →
  Repo.new d c p s
  = (Raises (Exn InvalidRepositoryError
               [dir; "Config file not found: " +:+ posixpath.join dir "config"]), s).
Proof.
  intros dir Hdir Hcfg. rewrite new_unfold. cbn zeta. fold dir.
  unfold Config.config_file. by rewrite Hdir, Hcfg.
Qed.

Lemma new_missing_config_witness :
  Repo.new (Some "meta") (Some "/srv/site") None (Faulty.start ["exists"; "config"])
  = (Raises (Exn InvalidRepositoryError
               ["/srv/site/meta"; "Config file not found: /srv/site/meta/config"]),
     Faulty.start ["exists"; "config"]).
Proof.
  apply (new_missing_config (Some "meta") (Some "/srv/site") None
           (Faulty.start ["exists"; "config"])); reflexivity.
Defined.

(** X3: with the directory and the configuration file in place, an error of
    the configuration loader is the error of the construction, and so is,
    once the configuration is loaded, an error of the presenter resolution,
    which is asked with the caller's hint about a repository that has no
    presenter yet. *)
Theorem new_collaborator_errors {W : Type} `{!Host W} (d c p : option string)
    (s : state W) (e : exn) :
  let cd := Repo.resolve (os_getcwd (world s)) c (Some (default "." d)) in
  os_path_isdir (world s) cd.2 = true →
  os_path_exists (world s) (posixpath.join cd.2 "config") = true →
  (Config_load (world s) (posixpath.join cd.2 "config") = inl e →
     Repo.new d c p s = (Raises e, s))
  ∧ (∀ cfg, Config_load (world s) (posixpath.join cd.2 "config") = inr cfg →
       Presenter_resolve (world s)
         {| directory := cd.2; content_directory := cd.1;
            config := cfg; presenter := None |} p = inl e →
       Repo.new d c p s = (Raises e, s)).
Proof.
  intros cd Hdir Hcfg. split.
  - intros Hload. rewrite new_unfold. cbn zeta. fold cd.
    unfold Config.config_file. by rewrite Hdir, Hcfg, Hload.
  - intros cfg Hload Hres. rewrite new_unfold. cbn zeta. fold cd.
    unfold Config.config_file. by rewrite Hdir, Hcfg, Hload, Hres.
Qed.

Lemma new_collaborator_errors_witness :
  Repo.new None (Some "/srv/site") None (Faulty.start ["config"])
  = (Raises (Exn (OtherError "ValueError") ["/srv/site/./config"]),
     Faulty.start ["config"])
  ∧ Repo.new None (Some "/srv/site") (Some "jekyll") (Faulty.start ["presenter"])
    = (Raises (Exn PresenterNotFoundError ["jekyll"]), Faulty.start ["presenter"]).
Proof.
  split.
  - edestruct (new_collaborator_errors None (Some "/srv/site") None
                 (Faulty.start ["config"])
                 (Exn (OtherError "ValueError") ["/srv/site/./config"]))
      as [H _]; [reflexivity..|].
    apply H. reflexivity.
  - edestruct (new_collaborator_errors None (Some "/srv/site") (Some "jekyll")
                 (Faulty.start ["presenter"])
                 (Exn PresenterNotFoundError ["jekyll"]))
      as [_ H]; [reflexivity..|].
    apply (H (Config.Build ∅)); reflexivity.
Defined.

(** X4: every repository that construction returns has a resolved
    presenter, a metadata directory that exists, and the configuration
    loaded from the file [config] inside it; its two directories are those
    [resolve] gives for the arguments, and the host is left as it was. *)
Theorem new_returns_invariant {W : Type} `{!Host W} (d c p : option string)
    (s s' : state W) (repo : Repository) :
  Repo.new d c p s = (Returns repo, s') →
  s' = s
  ∧ is_Some (presenter repo)
  ∧ (content_directory repo, directory repo)
    = Repo.resolve (os_getcwd (world s)) c (Some (default "." d))
  ∧ os_path_isdir (world s) (directory repo) = true
  ∧ os_path_exists (world s) (posixpath.join (directory repo) "config") = true
  ∧ Config_load (world s) (posixpath.join (directory repo) "config")
    = inr (config repo).
Proof.
  rewrite new_unfold. cbn zeta. unfold Config.config_file.
  destruct (Repo.resolve _ c _) as [cd1 cd2]. cbn [fst snd].
  destruct (os_path_isdir _ _) eqn:Hdir; [|done]. cbn [negb].
  destruct (os_path_exists _ _) eqn:Hcfg; [|done]. cbn [negb].
  destruct (Config_load _ _) as [e|cfg] eqn:Hload; [done|].
  destruct (Presenter_resolve _ _ _) as [e|pr]; [done|].
  intros [= <- <-]. simpl. by repeat split; eauto.
Qed.

Lemma new_returns_invariant_witness :
  ∃ repo,
    Repo.new (Some ".gitpress") (Some ".") None (Toy.start Toy.installed)
    = (Returns repo, Toy.start Toy.installed)
    ∧ is_Some (presenter repo)
    ∧ (content_directory repo, directory repo)
      = ("/home/u/site", "/home/u/site/.gitpress").
Proof.
  eexists. split; [vm_compute; reflexivity|].
  edestruct (new_returns_invariant (Some ".gitpress") (Some ".") None
               (Toy.start Toy.installed) (Toy.start Toy.installed) Toy.repo)
    as (_ & Hp & Hdirs & _); [vm_compute; reflexivity|].
  split; [exact Hp | exact Hdirs].
Defined.

(** ** More on paths and [resolve] *)

Section more_paths.
Import posixpath.

Lemma split_nonempty c s : split c s ≠ [].
Proof.
  destruct s as [|a s]; [done|]. simpl.
  destruct (Ascii.eqb a c); [done|]. by destruct (split c s).
Qed.

Lemma split_append a b :
  split "/" (a +:+ String "/" b) = (split "/" a ++ split "/" b)%list.
Proof.
  induction a as [|x a IH]; [done|]. simpl.
  destruct (Ascii.eqb x "/"); [by rewrite IH|].
  rewrite IH. pose proof (split_nonempty "/" a). by destruct (split "/" a).
Qed.

Lemma fold_trailing ini l c :
  c = "" ∨ c = "." →
  fold_left (normpath_step ini) (l ++ [c]) [] = fold_left (normpath_step ini) l [].
Proof. intros Hc. rewrite fold_left_app. simpl. by apply step_skip. Qed.

Lemma endswith_slash s :
  endswith_chr s "/" = true → ∃ s0, s = s0 +:+ "/".
Proof.
  induction s as [|a s IH]; [done|]. simpl.
  destruct s as [|b s].
  - intros ->%Ascii.eqb_eq. by exists "".
  - intros [s0 ->]%IH. by exists (String a s0).
Qed.

Lemma initial_slashes_trailing s0 :
  initial_slashes (s0 +:+ "/.") = initial_slashes (s0 +:+ "/").
Proof.
  unfold initial_slashes.
  destruct s0 as [|a [|b [|c s]]]; simpl; [done|..];
    destruct (Ascii.eqb a "/"); simpl; try done;
    destruct (Ascii.eqb b "/"); simpl; done.
Qed.

Lemma initial_slashes_extend s t :
  s ≠ "" → endswith_chr s "/" = false →
  initial_slashes (s +:+ String "/" t) = initial_slashes s.
Proof.
  unfold initial_slashes.
  destruct s as [|a [|b [|c s]]]; simpl; [done|..]; intros _;
    destruct (Ascii.eqb a "/"); simpl; try done;
    destruct (Ascii.eqb b "/"); simpl; done.
Qed.

Lemma append_nonempty a x b : a +:+ String x b ≠ "".
Proof. by destruct a. Qed.

(** A trailing [.] component does not change the normal form. *)
Lemma normpath_trailing_dot s0 : normpath (s0 +:+ "/.") = normpath (s0 +:+ "/").
Proof.
  rewrite !normpath_render by apply append_nonempty.
  rewrite initial_slashes_trailing, !split_append.
  change (split "/" ".") with ["."]. change (split "/" "") with [""].
  by rewrite !fold_trailing by auto.
Qed.

Lemma normpath_extended_dot s :
  s ≠ "" → endswith_chr s "/" = false → normpath (s +:+ "/.") = normpath s.
Proof.
  intros Hs Hend.
  rewrite (normpath_render (s +:+ "/.")) by apply append_nonempty.
  rewrite (normpath_render s) by done.
  rewrite initial_slashes_extend, split_append by done.
  change (split "/" ".") with ["."]. by rewrite fold_trailing by auto.
Qed.

(** [abspath('.')] is the normalized working directory. *)
Lemma abspath_dot cwd : abspath cwd "." = normpath cwd.
Proof.
  unfold abspath, join. simpl.
  destruct (String.eqb_spec cwd "") as [->|Hcwd]; [done|]. simpl.
  destruct (endswith_chr cwd "/") eqn:Hend.
  - destruct (endswith_slash _ Hend) as [s0 ->].
    assert ((s0 +:+ "/") +:+ "." = s0 +:+ "/.") as ->.
    { clear. induction s0 as [|a s0 IH]; [done|].
      change (String a ((s0 +:+ "/") +:+ ".") = String a (s0 +:+ "/.")).
      by rewrite IH. }
    apply normpath_trailing_dot.
  - by apply normpath_extended_dot.
Qed.

End more_paths.

(** X5: with both arguments omitted, [resolve] returns the normalized
    working directory and the directory [.gitpress] joined to it; under a
    working directory that is normalized already these are the working
    directory itself and its [.gitpress]. *)
Theorem resolve_defaults (cwd : string) :
  Repo.resolve cwd None None
  = (posixpath.normpath cwd, posixpath.join (posixpath.normpath cwd) ".gitpress")
  ∧ (posixpath.normpath cwd = cwd →
     Repo.resolve cwd None None = (cwd, posixpath.join cwd ".gitpress")).
Proof.
  assert (Repo.resolve cwd None None
          = (posixpath.normpath cwd,
             posixpath.join (posixpath.normpath cwd) ".gitpress")) as Heq.
  { unfold Repo.resolve. simpl default. by rewrite abspath_dot. }
  split; [done|]. intros Hn. by rewrite Heq, Hn.
Qed.

Lemma resolve_defaults_witness :
  Repo.resolve "/home/u/site" None None = ("/home/u/site", "/home/u/site/.gitpress").
Proof.
  destruct (resolve_defaults "/home/u/site") as [_ H]. apply H. reflexivity.
Defined.

(** X6: under an absolute working directory, whenever [content_directory]
    is given or [repo_directory] is omitted the repository directory that
    [resolve] returns is absolute; a [repo_directory] that is absolute
    itself is returned as it is, and the content directory is then the given
    one made absolute, whether or not it contains the repository. *)
Theorem resolve_repo_directory (cwd : string) (c r : option string) :
  posixpath.isabs cwd = true →
  (is_Some c ∨ r = None) →
  posixpath.isabs (Repo.resolve cwd c r).2 = true
  ∧ (∀ r', r = Some r' → posixpath.isabs r' = true →
       Repo.resolve cwd c r = (posixpath.abspath cwd (default "." c), r')).
Proof.
  intros Hcwd Hcr.
  assert (Repo.resolve cwd c r
          = (posixpath.abspath cwd (default "." c),
             posixpath.join (posixpath.abspath cwd (default "." c))
               (default Repo.default_directory r))) as ->.
  { destruct c as [c|]; [by rewrite resolve_both|].
    by destruct Hcr as [[? [=]]| ->]. }
  split.
  - by apply join_isabs, abspath_isabs.
  - intros r' -> Hr'. simpl. by rewrite join_absolute.
Qed.

Lemma resolve_repo_directory_witness :
  posixpath.isabs (Repo.resolve "/home/u" (Some "site") (Some "meta")).2 = true
  ∧ Repo.resolve "/home/u" (Some "site") (Some "/var/meta") = ("/home/u/site", "/var/meta").
Proof.
  split.
  - edestruct (resolve_repo_directory "/home/u" (Some "site") (Some "meta"))
      as [H _]; [reflexivity | by left; eexists | exact H].
  - edestruct (resolve_repo_directory "/home/u" (Some "site") (Some "/var/meta"))
      as [_ H]; [reflexivity | by left; eexists |].
    apply (H "/var/meta"); reflexivity.
Defined.

(** X7: a repository returned by [from_content] has the given content
    directory (the working directory when omitted) made absolute and
    normalized as its content directory, and its metadata directory is the
    given repository directory joined to it, or the path [.] joined to it
    when the repository directory is omitted: the default name [.gitpress]
    is not used. *)
Theorem from_content_paths {W : Type} `{!Host W} (c r p : option string)
    (s s' : state W) (repo : Repository) :
  posixpath.isabs (os_getcwd (world s)) = true →
  Repo.from_content c r p s = (Returns repo, s') →
  content_directory repo = posixpath.abspath (os_getcwd (world s)) (default "." c)
  ∧ directory repo = posixpath.join (content_directory repo) (default "." r)
  ∧ posixpath.isabs (content_directory repo) = true
  ∧ posixpath.normpath (content_directory repo) = content_directory repo
  ∧ posixpath.isabs (directory repo) = true.
Proof.
  intros Hcwd Hrun. unfold Repo.from_content in Hrun.
  apply new_returns_dirs in Hrun as [_ Hdirs].
  rewrite resolve_both in Hdirs. simpl in Hdirs.
  injection Hdirs as Hc Hd. rewrite Hd, Hc.
  repeat split; [by apply abspath_isabs | apply abspath_normalized |].
  by apply join_isabs, abspath_isabs.
Qed.

Lemma from_content_paths_witness :
  Repo.from_content (Some ".") (Some ".gitpress") None (Toy.start Toy.installed)
  = (Returns Toy.repo, Toy.start Toy.installed)
  ∧ directory Toy.repo = posixpath.join (content_directory Toy.repo) ".gitpress"
  ∧ posixpath.isabs (content_directory Toy.repo) = true.
Proof.
  split; [vm_compute; reflexivity|].
  edestruct (from_content_paths (Some ".") (Some ".gitpress") None
               (Toy.start Toy.installed) (Toy.start Toy.installed) Toy.repo)
    as (_ & Hd & Ha & _); [reflexivity | vm_compute; reflexivity |].
  split; [exact Hd | exact Ha].
Defined.

(** ** Creation of a repository *)

Section create_properties.
Context {W : Type} `{!Host W}.

(** The commit message of [init]. *)
Lemma init_create_unfold (template c r : string) (s : state W) :
  Repo.init_create template c r s =
    match resolve_template (world s) template with
    | inl e => (Raises e, s)
    | inr tp =>
        let message :=
          dquote +:+ "Add "
          +:+ (if String.eqb template default_template then template else repr template)
          +:+ " presentation content." +:+ dquote in
        let '(r1, w1) := shutil_copytree tp r (world s) in
        let l1 := (log s ++ [EvCopytree tp r])%list in
        match r1 with
        | inl e => (Raises e, State w1 l1)
        | inr _ =>
            let '(r2, w2) := subprocess_call ["git"; "init"; "-q"; r] None w1 in
            let l2 := (l1 ++ [EvSubprocess ["git"; "init"; "-q"; r] None])%list in
            match r2 with
            | inl e => (Raises e, State w2 l2)
            | inr _ =>
                let '(r3, w3) := subprocess_call ["git"; "add"; "."] (Some r) w2 in
                let l3 := (l2 ++ [EvSubprocess ["git"; "add"; "."] (Some r)])%list in
                match r3 with
                | inl e => (Raises e, State w3 l3)
                | inr _ =>
                    let '(r4, w4) :=
                      subprocess_call ["git"; "commit"; "-q"; "-m"; message] (Some r) w3 in
                    let l4 :=
                      (l3 ++ [EvSubprocess ["git"; "commit"; "-q"; "-m"; message]
                                (Some r)])%list in
                    match r4 with
                    | inl e => (Raises e, State w4 l4)
                    | inr _ => Repo.new (Some r) (Some c) None (State w4 l4)
                    end
                end
            end
        end
    end.
Proof.
  unfold Repo.init_create, mbind, Py_bind, query, call, lift, raise, mret, Py_ret.
  cbn beta iota zeta. cbn [world log].
  destruct (resolve_template _ _) as [e|tp]; [done|].
  destruct (shutil_copytree _ _ _) as [[e|[]] w1]; [done|]. cbn [world log].
  destruct (subprocess_call _ None w1) as [[e|c1] w2]; [done|]. cbn [world log].
  destruct (subprocess_call _ _ w2) as [[e|c2] w3]; [done|]. cbn [world log].
  destruct (subprocess_call _ _ w3) as [[e|c3] w4]; [done|]. cbn [world log].
  by destruct (Repo.new _ _ _ _) as [[?|?|] ?].
Qed.

Lemma new_returns_same (d c p : option string) (s s' : state W) repo :
  Repo.new d c p s = (Returns repo, s') → Repo.new d c p s' = (Returns repo, s').
Proof.
  intros H. pose proof (new_state d c p s) as Hs.
  rewrite H in Hs. simpl in Hs. by subst.
Qed.

(** A repository returned by the creation is the one a lookup in the final
    state returns. *)
Lemma init_create_returns (template c r : string) (s s' : state W) repo :
  Repo.init_create template c r s = (Returns repo, s') →
  Repo.new (Some r) (Some c) None s' = (Returns repo, s').
Proof.
  rewrite init_create_unfold. cbn zeta.
  destruct (resolve_template _ _) as [e|tp]; [done|].
  destruct (shutil_copytree _ _ _) as [[e|[]] w1]; [done|].
  destruct (subprocess_call _ None w1) as [[e|c1] w2]; [done|].
  destruct (subprocess_call _ _ w2) as [[e|c2] w3]; [done|].
  destruct (subprocess_call _ _ w3) as [[e|c3] w4]; [done|].
  apply new_returns_same.
Qed.

Lemma init_returns {S : Type} (self : S) c r t (s s' : state W) repo :
  Repo.init self c r t s = (Returns repo, s') →
  Repo.new (Some (Repo.resolve (os_getcwd (world s)) c r).2)
    (Some (Repo.resolve (os_getcwd (world s)) c r).1) None s'
  = (Returns repo, s').
Proof.
  rewrite init_unfold.
  destruct (Repo.init_probe _ _ s) as [[[]|?|] s1]; [|done..].
  apply init_create_returns.
Qed.

End create_properties.

(** X8: once the template is resolved and copied, [init] runs [git init] on
    the repository directory, then [git add .] and [git commit] inside it,
    in this order, and looks the repository up; the exit codes of the three
    commands are not looked at.  The commit message names the default
    template as it is and any other template by its [repr]. *)
Theorem init_create_sequence {W : Type} `{!Host W} (template c r : string)
    (s : state W) (tp : string) (w1 w2 w3 w4 : W) (c1 c2 c3 : Z) :
  let message :=
    dquote +:+ "Add "
    +:+ (if String.eqb template default_template then template else repr template)
    +:+ " presentation content." +:+ dquote in
  resolve_template (world s) template = inr tp →
  shutil_copytree tp r (world s) = (inr tt, w1) →
  subprocess_call ["git"; "init"; "-q"; r] None w1 = (inr c1, w2) →
  subprocess_call ["git"; "add"; "."] (Some r) w2 = (inr c2, w3) →
  subprocess_call ["git"; "commit"; "-q"; "-m"; message] (Some r) w3 = (inr c3, w4) →
  Repo.init_create template c r s
  = Repo.new (Some r) (Some c) None
      (State w4
         (log s ++ [EvCopytree tp r;
                    EvSubprocess ["git"; "init"; "-q"; r] None;
                    EvSubprocess ["git"; "add"; "."] (Some r);
                    EvSubprocess ["git"; "commit"; "-q"; "-m"; message] (Some r)])).
Proof.
  intros message Ht Hc H1 H2 H3. rewrite init_create_unfold. cbn zeta.
  fold message. rewrite Ht, Hc, H1, H2, H3.
  by rewrite <- !app_assoc.
Qed.

Lemma init_create_sequence_witness :
  Repo.init_create "blog" "/srv/site" "/srv/site/.gitpress" (Faulty.start ["git"])
  = Repo.new (Some "/srv/site/.gitpress") (Some "/srv/site") None
      (State (Faulty.World ["git"] "/srv/site")
         [EvCopytree "/usr/share/gitpress/templates/blog" "/srv/site/.gitpress";
          EvSubprocess ["git"; "init"; "-q"; "/srv/site/.gitpress"] None;
          EvSubprocess ["git"; "add"; "."] (Some "/srv/site/.gitpress");
          EvSubprocess ["git"; "commit"; "-q"; "-m";
                        dquote +:+ "Add 'blog' presentation content." +:+ dquote]
            (Some "/srv/site/.gitpress")]).
Proof.
  unshelve epose proof
    (init_create_sequence "blog" "/srv/site" "/srv/site/.gitpress"
       (Faulty.start ["git"]) "/usr/share/gitpress/templates/blog"
       (Faulty.World ["git"] "/srv/site") (Faulty.World ["git"] "/srv/site")
       (Faulty.World ["git"] "/srv/site") (Faulty.World ["git"] "/srv/site")
       128 128 128 _ _ _ _ _) as H; [reflexivity..|].
  exact H.
Defined.

(** X9: when the template cannot be resolved [init] copies nothing and
    runs nothing; when the copy of the template fails (the destination
    exists, say), the error is the error of [init] and no [git] command is
    run. *)
Theorem init_create_failure {W : Type} `{!Host W} (template c r : string)
    (s : state W) (e : exn) :
  (resolve_template (world s) template = inl e →
     Repo.init_create template c r s = (Raises e, s))
  ∧ (∀ tp w1, resolve_template (world s) template = inr tp →
       shutil_copytree tp r (world s) = (inl e, w1) →
       Repo.init_create template c r s
       = (Raises e, State w1 (log s ++ [EvCopytree tp r]))).
Proof.
  split.
  - intros Ht. rewrite init_create_unfold. by rewrite Ht.
  - intros tp w1 Ht Hc. rewrite init_create_unfold. cbn zeta. by rewrite Ht, Hc.
Qed.

Lemma init_create_failure_witness :
  Repo.init_create "blog" "/srv/site" "/srv/site/.gitpress" (Faulty.start ["template"])
  = (Raises (Exn (OtherError "TemplateNotFoundError") ["blog"]),
     Faulty.start ["template"])
  ∧ Repo.init_create "default" "/home/u/site" "/home/u/site/.gitpress"
      (Toy.start Toy.installed)
    = (Raises (Exn OSError ["/home/u/site/.gitpress"]),
       State Toy.installed
         [EvCopytree "/usr/share/gitpress/templates/default" "/home/u/site/.gitpress"]).
Proof.
  split.
  - edestruct (init_create_failure "blog" "/srv/site" "/srv/site/.gitpress"
                 (Faulty.start ["template"])
                 (Exn (OtherError "TemplateNotFoundError") ["blog"])) as [H _].
    apply H. reflexivity.
  - edestruct (init_create_failure "default" "/home/u/site" "/home/u/site/.gitpress"
                 (Toy.start Toy.installed)
                 (Exn OSError ["/home/u/site/.gitpress"])) as [_ H].
    apply (H "/usr/share/gitpress/templates/default" Toy.installed);
      [reflexivity | vm_compute; reflexivity].
Defined.

(** X10: after an [init] that has returned a repository, a second [init]
    with the same directories, run in the state the first one left and from
    the same working directory, fails with [RepositoryAlreadyExistsError],
    whatever its template, and changes nothing. *)
Theorem init_twice {W : Type} `{!Host W} {S1 S2 : Type} (a : S1) (b : S2)
    (c r t t' : option string) (s s' : state W) (repo : Repository) :
  Repo.init a c r t s = (Returns repo, s') →
  os_getcwd (world s') = os_getcwd (world s) →
  Repo.init b c r t' s'
  = (Raises (Exn RepositoryAlreadyExistsError
               [(Repo.resolve (os_getcwd (world s)) c r).1;
                (Repo.resolve (os_getcwd (world s)) c r).2]), s').
Proof.
  intros Hinit Hcwd. apply init_returns in Hinit.
  rewrite init_unfold, init_probe_unfold, Hcwd. by rewrite Hinit.
Qed.

Lemma init_twice_witness :
  Repo.init tt None None None (Toy.start Toy.fresh) = (Returns Toy.repo, after_init)
  ∧ Repo.init tt None None (Some "blog") after_init
    = (Raises (Exn RepositoryAlreadyExistsError
                 ["/home/u/site"; "/home/u/site/.gitpress"]), after_init).
Proof.
  assert (Repo.init tt None None None (Toy.start Toy.fresh)
          = (Returns Toy.repo, after_init)) as Hinit by (vm_compute; reflexivity).
  split; [exact Hinit|].
  unshelve epose proof
    (init_twice tt tt None None None (Some "blog") (Toy.start Toy.fresh) after_init
       Toy.repo Hinit _) as H; [vm_compute; reflexivity|].
  exact H.
Defined.

(** X11: under an absolute working directory that [init] does not change,
    and with [content_directory] given or [repo_directory] omitted, the
    repository [init] returns has exactly the two directories [resolve]
    gives for the arguments of [init]. *)
Theorem init_returns_resolved {W : Type} `{!Host W} {S : Type} (self : S)
    (c r t : option string) (s s' : state W) (repo : Repository) :
  posixpath.isabs (os_getcwd (world s)) = true →
  os_getcwd (world s') = os_getcwd (world s) →
  (is_Some c ∨ r = None) →
  Repo.init self c r t s = (Returns repo, s') →
  (content_directory repo, directory repo) = Repo.resolve (os_getcwd (world s)) c r.
Proof.
  intros Habs Hcwd Hcr Hinit. apply init_returns in Hinit.
  apply new_returns_dirs in Hinit as [_ ->]. rewrite Hcwd. simpl default.
  assert (∃ c' r', Repo.resolve (os_getcwd (world s)) c r
                   = (posixpath.abspath (os_getcwd (world s)) c',
                      posixpath.join (posixpath.abspath (os_getcwd (world s)) c') r'))
    as (c' & r' & ->).
  { destruct c as [c|]; [rewrite resolve_both; eauto|].
    destruct Hcr as [[? [=]]| ->]. by eexists _, _. }
  by apply resolve_fixed.
Qed.

Lemma init_returns_resolved_witness :
  Repo.init tt (Some ".") None None (Toy.start Toy.fresh) = (Returns Toy.repo, after_init)
  ∧ (content_directory Toy.repo, directory Toy.repo)
    = ("/home/u/site", "/home/u/site/.gitpress").
Proof.
  assert (Repo.init tt (Some ".") None None (Toy.start Toy.fresh)
          = (Returns Toy.repo, after_init)) as Hinit by (vm_compute; reflexivity).
  split; [exact Hinit|].
  unshelve epose proof
    (init_returns_resolved tt (Some ".") None None (Toy.start Toy.fresh) after_init
       Toy.repo _ _ _ Hinit) as H;
    [reflexivity | vm_compute; reflexivity | by left; eexists |].
  exact H.
Defined.

(** ** The preview function of [previewing.py] *)

Section previewing_properties.
Context {W : Type} `{!Host W}.

Lemma previewing_unfold (directory host : option string) (port : option Z)
    (watch : bool) (s : state W) :
  Repo.previewing_preview directory host port watch s =
    let d := Repo.or_str directory "." in
    let h := Repo.or_str host "127.0.0.1" in
    let p := Repo.or_int port 5000 in
    let '(r1, w1) := building_build d (world s) in
    let l1 := (log s ++ [EvBuild d])%list in
    match r1 with
    | inl e => (Raises e, State w1 l1)
    | inr out =>
        let '(r2, w2) := os_chdir out w1 in
        let l2 := (l1 ++ [EvChdir out])%list in
        match r2 with
        | inl e => (Raises e, State w2 l2)
        | inr _ =>
            let '(r3, w3) := TCPServer h p w2 in
            let l3 := (l2 ++ [EvBind h p])%list in
            match r3 with
            | inl e => (Raises e, State w3 l3)
            | inr _ =>
                (Blocks,
                 State w3
                   ((l3 ++ [EvPrint (" * Serving on http://" +:+ h +:+ ":"
                                     +:+ str_of_Z p +:+ "/")])
                    ++ [EvServeForever]))
            end
        end
    end.
Proof.
  unfold Repo.previewing_preview, mbind, Py_bind, call, emit, forever,
    lift, raise, mret, Py_ret.
  cbn beta iota zeta. cbn [world log].
  destruct (building_build _ _) as [[e|out] w1]; [done|]. cbn [world log].
  destruct (os_chdir _ _) as [[e|[]] w2]; [done|]. cbn [world log].
  by destruct (TCPServer _ _ _) as [[e|[]] w3].
Qed.

Lemma or_str_given (x d : string) : x ≠ "" → Repo.or_str (Some x) d = x.
Proof. intros Hx%String.eqb_neq. unfold Repo.or_str. by rewrite Hx. Qed.

Lemma or_int_given (n d : Z) : n ≠ 0%Z → Repo.or_int (Some n) d = n.
Proof. intros Hn%Z.eqb_neq. unfold Repo.or_int. by rewrite Hn. Qed.

Lemma or_str_falsy (x : option string) (d : string) :
  x = None ∨ x = Some "" → Repo.or_str x d = d.
Proof. by intros [-> | ->]. Qed.

Lemma or_int_falsy (x : option Z) (d : Z) :
  x = None ∨ x = Some 0%Z → Repo.or_int x d = d.
Proof. by intros [-> | ->]. Qed.

End previewing_properties.

(** X13: in [preview] of [previewing.py], when the build of the given
    directory fails its error is the error of [preview] and nothing else is
    done: the working directory is not changed, no socket is bound, nothing
    is printed.  When the output directory cannot be entered, no socket is
    bound either. *)
Theorem previewing_build_failure {W : Type} `{!Host W} (d : string)
    (host : option string) (port : option Z) (watch : bool) (s : state W) (e : exn) :
  d ≠ "" →
  (∀ w1, building_build d (world s) = (inl e, w1) →
     Repo.previewing_preview (Some d) host port watch s
     = (Raises e, State w1 (log s ++ [EvBuild d])))
  ∧ (∀ out w1 w2, building_build d (world s) = (inr out, w1) →
       os_chdir out w1 = (inl e, w2) →
       Repo.previewing_preview (Some d) host port watch s
       = (Raises e, State w2 (log s ++ [EvBuild d; EvChdir out]))).
Proof.
  intros Hd. split.
  - intros w1 Hb. rewrite previewing_unfold. cbn zeta.
    rewrite or_str_given by done. by rewrite Hb.
  - intros out w1 w2 Hb Hc. rewrite previewing_unfold. cbn zeta.
    rewrite or_str_given by done. rewrite Hb, Hc. by rewrite <- !app_assoc.
Qed.

Lemma previewing_build_failure_witness :
  Repo.previewing_preview (Some "/srv/site") None None true (Faulty.start ["build"])
  = (Raises (Exn (OtherError "BuildError") ["/srv/site"]),
     State (Faulty.World ["build"] "/srv/site") [EvBuild "/srv/site"])
  ∧ Repo.previewing_preview (Some "/srv/site") None None true (Faulty.start ["chdir"])
    = (Raises (Exn OSError ["/srv/site/_site"]),
       State (Faulty.World ["chdir"] "/srv/site")
         [EvBuild "/srv/site"; EvChdir "/srv/site/_site"]).
Proof.
  split.
  - edestruct (previewing_build_failure "/srv/site" None None true
                 (Faulty.start ["build"])
                 (Exn (OtherError "BuildError") ["/srv/site"])) as [H _]; [done|].
    apply H. reflexivity.
  - edestruct (previewing_build_failure "/srv/site" None None true
                 (Faulty.start ["chdir"])
                 (Exn OSError ["/srv/site/_site"])) as [_ H]; [done|].
    apply (H "/srv/site/_site" (Faulty.World ["chdir"] "/srv/site")); reflexivity.
Defined.

(** X14: in [preview] of [previewing.py], when the socket cannot be bound
    to the given host and port (the port is taken, say), the error is the
    error of [preview]; the site has been built and the working directory is
    already the output directory, but the address is not printed and the
    serve loop is not entered. *)
Theorem previewing_bind_failure {W : Type} `{!Host W} (d h : string) (p : Z)
    (watch : bool) (s : state W) (e : exn) (out : string) (w1 w2 w3 : W) :
  d ≠ "" → h ≠ "" → p ≠ 0%Z →
  building_build d (world s) = (inr out, w1) →
  os_chdir out w1 = (inr tt, w2) →
  TCPServer h p w2 = (inl e, w3) →
  Repo.previewing_preview (Some d) (Some h) (Some p) watch s
  = (Raises e, State w3 (log s ++ [EvBuild d; EvChdir out; EvBind h p])).
Proof.
  intros Hd Hh Hp Hb Hc Ht. rewrite previewing_unfold. cbn zeta.
  rewrite !or_str_given, or_int_given by done.
  rewrite Hb, Hc, Ht. by rewrite <- !app_assoc.
Qed.

Lemma previewing_bind_failure_witness :
  Repo.previewing_preview (Some "/srv/site") (Some "0.0.0.0") (Some 80%Z) true
    (Faulty.start ["bind"])
  = (Raises (Exn (OtherError "socket.error") ["Address already in use"]),
     State (Faulty.World ["bind"] "/srv/site/_site")
       [EvBuild "/srv/site"; EvChdir "/srv/site/_site"; EvBind "0.0.0.0" 80]).
Proof.
  apply (previewing_bind_failure "/srv/site" "0.0.0.0" 80 true (Faulty.start ["bind"])
           (Exn (OtherError "socket.error") ["Address already in use"])
           "/srv/site/_site" (Faulty.World ["bind"] "/srv/site")
           (Faulty.World ["bind"] "/srv/site/_site")
           (Faulty.World ["bind"] "/srv/site/_site")); done.
Defined.

(** X15: in [preview] of [previewing.py], an empty directory, an empty host
    and the port 0 are replaced by the defaults like omitted ones: the site
    of [.] is built and the server is bound to 127.0.0.1:5000, so that the
    port 0 cannot be asked for. *)
Theorem previewing_falsy_arguments {W : Type} `{!Host W}
    (directory host : option string) (port : option Z) (watch : bool)
    (s : state W) (out : string) (w1 w2 w3 : W) :
  directory = None ∨ directory = Some "" →
  host = None ∨ host = Some "" →
  port = None ∨ port = Some 0%Z →
  building_build "." (world s) = (inr out, w1) →
  os_chdir out w1 = (inr tt, w2) →
  TCPServer "127.0.0.1" 5000 w2 = (inr tt, w3) →
  Repo.previewing_preview directory host port watch s
  = (Blocks,
     State w3
       (log s ++ [EvBuild "."; EvChdir out; EvBind "127.0.0.1" 5000;
                  EvPrint " * Serving on http://127.0.0.1:5000/"; EvServeForever])).
Proof.
  intros Hd Hh Hp Hb Hc Ht. rewrite previewing_unfold. cbn zeta.
  rewrite !or_str_falsy, or_int_falsy by done.
  rewrite Hb, Hc, Ht. by rewrite <- !app_assoc.
Qed.

Lemma previewing_falsy_arguments_witness :
  Repo.previewing_preview (Some "") (Some "") (Some 0%Z) true (Faulty.start [])
  = (Blocks,
     State (Faulty.World [] "./_site")
       [EvBuild "."; EvChdir "./_site"; EvBind "127.0.0.1" 5000;
        EvPrint " * Serving on http://127.0.0.1:5000/"; EvServeForever]).
Proof.
  apply (previewing_falsy_arguments (Some "") (Some "") (Some 0%Z) true
           (Faulty.start []) "./_site" (Faulty.World [] "/srv/site")
           (Faulty.World [] "./_site") (Faulty.World [] "./_site"));
    try (by right); reflexivity.
Defined.

(** X28: [preview] of [previewing.py], given a directory, a host and a port
    (none of them empty or 0), builds the site of that directory, enters the
    output directory, binds the server to that host and port, prints the
    line [ * Serving on http://host:port/] and only then enters the serve
    loop, from which it does not return. *)
Theorem previewing_serves {W : Type} `{!Host W} (d h : string) (p : Z)
    (watch : bool) (s : state W) (out : string) (w1 w2 w3 : W) :
  d ≠ "" → h ≠ "" → p ≠ 0%Z →
  building_build d (world s) = (inr out, w1) →
  os_chdir out w1 = (inr tt, w2) →
  TCPServer h p w2 = (inr tt, w3) →
  Repo.previewing_preview (Some d) (Some h) (Some p) watch s
  = (Blocks,
     State w3
       (log s ++ [EvBuild d; EvChdir out; EvBind h p;
                  EvPrint (" * Serving on http://" +:+ h +:+ ":" +:+ str_of_Z p +:+ "/");
                  EvServeForever])).
Proof.
  intros Hd Hh Hp Hb Hc Ht. rewrite previewing_unfold. cbn zeta.
  rewrite !or_str_given, or_int_given by done.
  rewrite Hb, Hc, Ht. by rewrite <- !app_assoc.
Qed.

Lemma previewing_serves_witness :
  Repo.previewing_preview (Some "/srv/site") (Some "0.0.0.0") (Some 8080%Z) false
    (Faulty.start [])
  = (Blocks,
     State (Faulty.World [] "/srv/site/_site")
       [EvBuild "/srv/site"; EvChdir "/srv/site/_site"; EvBind "0.0.0.0" 8080;
        EvPrint " * Serving on http://0.0.0.0:8080/"; EvServeForever]).
Proof.
  apply (previewing_serves "/srv/site" "0.0.0.0" 8080 false (Faulty.start [])
           "/srv/site/_site" (Faulty.World [] "/srv/site")
           (Faulty.World [] "/srv/site/_site")
           (Faulty.World [] "/srv/site/_site")); done.
Defined.

(** ** More on plugins *)

Section more_plugin_properties.

Lemma plugins_stored (self : Repository) :
  Repo.plugins self = inr (requirement <$> map_to_list (stored_plugins self)).
Proof.
  unfold Repo.plugins, Config.get, stored_plugins.
  destruct (Config.data (config self) !! "plugins") as [[]|]; simpl;
    by rewrite ?map_to_list_empty.
Qed.

Lemma get_plugins_strict (self : Repository) :
  plugins_well_formed self →
  Config.get (config self) "plugins" (VDict ∅) (Some TDict) false
  = inr (VDict (stored_plugins self)).
Proof.
  unfold plugins_well_formed, Config.get, stored_plugins.
  by destruct (Config.data (config self) !! "plugins") as [[]|].
Qed.

Lemma add_plugin_stored (self : Repository) (x : string) :
  plugins_well_formed self →
  stored_plugins self !! x = None →
  Repo.add_plugin self x
  = (inr true,
     with_config self
       (Config.Build (<["plugins" := VDict (<[x := VDict ∅]> (stored_plugins self))]>
                        (Config.data (config self))))).
Proof. intros Hwf Hx. by apply add_plugin_fresh; [apply get_plugins_strict|]. Qed.

Lemma remove_plugin_stored (self : Repository) (x : string) :
  plugins_well_formed self →
  is_Some (stored_plugins self !! x) →
  Repo.remove_plugin self x
  = (inr true,
     with_config self
       (Config.Build (<["plugins" := VDict (delete x (stored_plugins self))]>
                        (Config.data (config self))))).
Proof.
  intros Hwf Hx. unfold Repo.remove_plugin. rewrite get_plugins_strict by done.
  by rewrite bool_decide_eq_true_2.
Qed.

Lemma remove_plugin_missing (self : Repository) (x : string) :
  plugins_well_formed self →
  stored_plugins self !! x = None →
  Repo.remove_plugin self x = (inr false, self).
Proof.
  intros Hwf Hx. unfold Repo.remove_plugin. rewrite get_plugins_strict by done.
  rewrite bool_decide_eq_false_2; [done|]. rewrite Hx. by intros [? ?].
Qed.

Lemma stored_plugins_set (self : Repository) (d : gmap string value) :
  stored_plugins
    (with_config self (Config.Build (<["plugins" := VDict d]> (Config.data (config self)))))
  = d.
Proof. unfold stored_plugins. simpl. by rewrite lookup_insert_eq. Qed.

Lemma well_formed_set (self : Repository) (d : gmap string value) :
  plugins_well_formed
    (with_config self (Config.Build (<["plugins" := VDict d]> (Config.data (config self))))).
Proof. unfold plugins_well_formed. simpl. by rewrite lookup_insert_eq. Qed.

Lemma elem_of_requirements (p : PluginRequirement) (d : gmap string value) :
  p ∈ requirement <$> map_to_list d ↔ d !! plugin_name p = Some (plugin_options p).
Proof.
  rewrite list_elem_of_fmap. split.
  - intros ([k v] & -> & Hkv%elem_of_map_to_list). done.
  - intros Hp. exists (plugin_name p, plugin_options p).
    split; [by destruct p | by apply elem_of_map_to_list].
Qed.

End more_plugin_properties.

(** X16: [plugins()] never fails, whatever the configuration holds, and no
    two of the requirements it lists have the same name; when the [plugins]
    key holds something that is not a mapping the list is empty. *)
Theorem plugins_never_fails (self : Repository) :
  ∃ l, Repo.plugins self = inr l
       ∧ NoDup (plugin_name <$> l)
       ∧ (¬ plugins_well_formed self → l = []).
Proof.
  exists (requirement <$> map_to_list (stored_plugins self)).
  split; [apply plugins_stored|]. split.
  - rewrite <- list_fmap_compose. apply (NoDup_fst_map_to_list (stored_plugins self)).
  - unfold plugins_well_formed, stored_plugins.
    destruct (Config.data (config self) !! "plugins") as [[]|];
      by rewrite ?map_to_list_empty.
Qed.

Lemma plugins_never_fails_witness :
  Repo.plugins (with_config Toy.repo malformed_config) = inr [].
Proof.
  destruct (plugins_never_fails (with_config Toy.repo malformed_config))
    as (l & Hl & _ & Hempty).
  rewrite Hl. f_equal. apply Hempty. vm_compute. intros H. exact H.
Defined.

(** X17: when the [plugins] key holds something that is not a mapping,
    [add_plugin] and [remove_plugin] both fail with an error and store
    nothing, while [plugins()] answers with the empty list. *)
Theorem plugins_malformed (self : Repository) (x : string) :
  ¬ plugins_well_formed self →
  (∃ e, Repo.add_plugin self x = (inl e, self))
  ∧ (∃ e, Repo.remove_plugin self x = (inl e, self))
  ∧ Repo.plugins self = inr [].
Proof.
  intros Hwf. unfold Repo.add_plugin, Repo.remove_plugin, Repo.plugins, Config.get.
  unfold plugins_well_formed in Hwf.
  destruct (Config.data (config self) !! "plugins") as [[]|]; simpl; try done;
    eauto.
Qed.

Lemma plugins_malformed_witness :
  (∃ e, Repo.add_plugin (with_config Toy.repo malformed_config) "x"
        = (inl e, with_config Toy.repo malformed_config))
  ∧ (∃ e, Repo.remove_plugin (with_config Toy.repo malformed_config) "x"
          = (inl e, with_config Toy.repo malformed_config))
  ∧ Repo.plugins (with_config Toy.repo malformed_config) = inr [].
Proof.
  apply (plugins_malformed (with_config Toy.repo malformed_config) "x").
  vm_compute. intros H. exact H.
Defined.

(** X18: [remove_plugin] of a name that the repository does not require
    returns [false] and stores nothing; of a name it requires it returns
    [true], after which [plugins()] lists exactly the requirements it listed
    before under another name, and a second [remove_plugin] returns
    [false]. *)
Theorem remove_plugin_effect (self : Repository) (x : string) :
  plugins_well_formed self →
  (stored_plugins self !! x = None → Repo.remove_plugin self x = (inr false, self))
  ∧ (is_Some (stored_plugins self !! x) →
     ∃ self' l l',
       Repo.remove_plugin self x = (inr true, self')
       ∧ Repo.plugins self = inr l
       ∧ Repo.plugins self' = inr l'
       ∧ (∀ p, p ∈ l' ↔ p ∈ l ∧ plugin_name p ≠ x)
       ∧ Repo.remove_plugin self' x = (inr false, self')).
Proof.
  intros Hwf. split; [by apply remove_plugin_missing|].
  intros Hx. eexists _, _, _.
  split; [by apply remove_plugin_stored|].
  split; [apply plugins_stored|]. split; [apply plugins_stored|]. split.
  - intros p. rewrite stored_plugins_set, !elem_of_requirements, lookup_delete_Some.
    split; intros [? ?]; by split.
  - apply remove_plugin_missing; [apply well_formed_set|].
    rewrite stored_plugins_set. apply lookup_delete_eq.
Qed.

Lemma remove_plugin_effect_witness :
  Repo.remove_plugin Toy.repo "x" = (inr false, Toy.repo)
  ∧ ∃ self', Repo.remove_plugin Toy.repo_with_x "x" = (inr true, self')
             ∧ Repo.remove_plugin self' "x" = (inr false, self').
Proof.
  split.
  - edestruct (remove_plugin_effect Toy.repo "x") as [H _]; [by vm_compute|].
    apply H. by vm_compute.
  - edestruct (remove_plugin_effect Toy.repo_with_x "x") as [_ H]; [by vm_compute|].
    destruct H as (self' & l & l' & H1 & _ & _ & _ & H2);
      [vm_compute; by eexists|].
    exists self'. by split.
Defined.

(** X19: on a repository that does not require [x], [add_plugin(x)]
    followed by [remove_plugin(x)] returns [true] twice, and [plugins()]
    lists afterwards the requirements it listed before, whatever their
    order. *)
Theorem add_remove_plugin (self : Repository) (x : string) :
  plugins_well_formed self →
  stored_plugins self !! x = None →
  ∃ self1 self2 l l2,
    Repo.add_plugin self x = (inr true, self1)
    ∧ Repo.remove_plugin self1 x = (inr true, self2)
    ∧ Repo.plugins self = inr l
    ∧ Repo.plugins self2 = inr l2
    ∧ (∀ p, p ∈ l2 ↔ p ∈ l).
Proof.
  intros Hwf Hx. eexists _, _, _, _.
  split; [by apply add_plugin_stored|]. split.
  - apply remove_plugin_stored; [apply well_formed_set|].
    rewrite stored_plugins_set, lookup_insert_eq. by eexists.
  - split; [apply plugins_stored|]. split; [apply plugins_stored|].
    intros p. rewrite !stored_plugins_set, !elem_of_requirements.
    by rewrite delete_insert_id.
Qed.

Lemma add_remove_plugin_witness :
  ∃ self1 self2 l l2,
    Repo.add_plugin Toy.repo_with_x "y" = (inr true, self1)
    ∧ Repo.remove_plugin self1 "y" = (inr true, self2)
    ∧ Repo.plugins Toy.repo_with_x = inr l
    ∧ Repo.plugins self2 = inr l2
    ∧ (∀ p, p ∈ l2 ↔ p ∈ l).
Proof. apply (add_remove_plugin Toy.repo_with_x "y"); by vm_compute. Defined.

(** X20: on a repository that does not require [x], [add_plugin(x)] keeps
    every requirement there was: [plugins()] lists afterwards exactly the
    requirements it listed before and [x] with empty options. *)
Theorem add_plugin_keeps_others (self : Repository) (x : string) :
  plugins_well_formed self →
  stored_plugins self !! x = None →
  ∃ self1 l l1,
    Repo.add_plugin self x = (inr true, self1)
    ∧ Repo.plugins self = inr l
    ∧ Repo.plugins self1 = inr l1
    ∧ (∀ p, p ∈ l1 ↔ p ∈ l ∨ p = {| plugin_name := x; plugin_options := VDict ∅ |}).
Proof.
  intros Hwf Hx. eexists _, _, _.
  split; [by apply add_plugin_stored|].
  split; [apply plugins_stored|]. split; [apply plugins_stored|].
  intros p. rewrite stored_plugins_set, !elem_of_requirements, lookup_insert_Some.
  destruct p as [n o]. simpl. split.
  - intros [[<- <-]|[? ?]]; auto.
  - intros [Hp|[= -> ->]]; [|auto]. right. split; [|done]. congruence.
Qed.

Lemma add_plugin_keeps_others_witness :
  ∃ self1 l l1,
    Repo.add_plugin Toy.repo_with_x "y" = (inr true, self1)
    ∧ Repo.plugins Toy.repo_with_x = inr l
    ∧ Repo.plugins self1 = inr l1
    ∧ (∀ p, p ∈ l1 ↔ p ∈ l ∨ p = {| plugin_name := "y"; plugin_options := VDict ∅ |}).
Proof. apply (add_plugin_keeps_others Toy.repo_with_x "y"); by vm_compute. Defined.

(** X21: [add_plugin] and [remove_plugin] touch the [plugins] key only:
    whatever they return, the directories and the presenter of the
    repository and every other key of its configuration, the active theme
    among them, are as before. *)
Theorem plugin_updates_frame (self : Repository) (x : string) :
  unchanged_except "plugins" self (Repo.add_plugin self x).2
  ∧ unchanged_except "plugins" self (Repo.remove_plugin self x).2.
Proof.
  split; unfold unchanged_except, Repo.add_plugin, Repo.remove_plugin;
    destruct (Config.get _ _ _ _ _) as [e|[]]; simpl; try done;
    case_bool_decide; simpl; repeat split; try done;
    intros k Hk; by rewrite lookup_insert_ne.
Qed.

(** ** More on themes *)

Section more_theme_properties.
Context {W : Type} `{!Host W}.

Lemma themes_unfold (self : Repository) (s : state W) :
  Repo.themes self s =
    if os_path_isdir (world s) (posixpath.join (directory self) "themes")
    then match os_listdir (world s) (posixpath.join (directory self) "themes") with
         | inl e => (Raises e, s)
         | inr l => (Returns (Some l), s)
         end
    else (Returns None, s).
Proof.
  unfold Repo.themes, Repo.themes_directory, mbind, Py_bind, read, query, lift, raise,
    mret, Py_ret.
  cbn beta iota. destruct (os_path_isdir _ _); [|done].
  by destruct (os_listdir _ _).
Qed.

Lemma use_theme_unfold (self : Repository) (theme : string) (s : state W) :
  Repo.use_theme self theme s =
    if os_path_isdir (world s) (posixpath.join (directory self) "themes")
    then match os_listdir (world s) (posixpath.join (directory self) "themes") with
         | inl e => (Raises e, s)
         | inr l =>
             if bool_decide (theme ∈ l)
             then (Returns (ne_str (default VNone (Config.data (config self) !! "theme"))
                              theme,
                            with_config self
                              (Config.Build (<["theme" := VStr theme]>
                                               (Config.data (config self))))), s)
             else (Raises (Exn ThemeNotFoundError [theme]), s)
         end
    else (Raises (Exn TypeError ["argument of type 'NoneType' is not iterable"]), s).
Proof.
  unfold Repo.use_theme, mbind, Py_bind. rewrite themes_unfold.
  destruct (os_path_isdir _ _); [|done].
  destruct (os_listdir _ _) as [e|l]; [done|].
  by case_bool_decide.
Qed.

End more_theme_properties.

(** X22: [themes()] is [None] exactly when the metadata directory has no
    themes directory; a themes directory that is empty gives the empty list,
    and then [use_theme] refuses every theme with [ThemeNotFoundError]. *)
Theorem themes_none_iff {W : Type} `{!Host W} (self : Repository) (s : state W) :
  (Repo.themes self s = (Returns None, s)
   ↔ os_path_isdir (world s) (posixpath.join (directory self) "themes") = false)
  ∧ (os_path_isdir (world s) (posixpath.join (directory self) "themes") = true →
     os_listdir (world s) (posixpath.join (directory self) "themes") = inr [] →
     Repo.themes self s = (Returns (Some []), s)
     ∧ ∀ theme, Repo.use_theme self theme s
                = (Raises (Exn ThemeNotFoundError [theme]), s)).
Proof.
  split.
  - rewrite themes_unfold. destruct (os_path_isdir _ _); [|done].
    by destruct (os_listdir _ _).
  - intros Hd Hl. split; [by rewrite themes_unfold, Hd, Hl|].
    intros theme. rewrite use_theme_unfold, Hd, Hl.
    rewrite bool_decide_eq_false_2; [done|]. apply not_elem_of_nil.
Qed.

Lemma themes_none_iff_witness :
  Repo.themes Toy.repo
    (Toy.start (Toy.World "/" {[ "/home/u/site/.gitpress/themes" := [] ]} ∅ []))
  = (Returns (Some []),
     Toy.start (Toy.World "/" {[ "/home/u/site/.gitpress/themes" := [] ]} ∅ [])).
Proof.
  edestruct (themes_none_iff Toy.repo
               (Toy.start (Toy.World "/" {[ "/home/u/site/.gitpress/themes" := [] ]} ∅ [])))
    as [_ H].
  apply H; vm_compute; reflexivity.
Defined.

(** X23: with a themes directory in place, [use_theme] fails with
    [ThemeNotFoundError], carrying the name it was given, exactly when that
    name is not in the listing of the directory. *)
Theorem use_theme_refusal {W : Type} `{!Host W} (self : Repository) (theme : string)
    (s : state W) (l : list string) :
  os_path_isdir (world s) (posixpath.join (directory self) "themes") = true →
  os_listdir (world s) (posixpath.join (directory self) "themes") = inr l →
  (Repo.use_theme self theme s = (Raises (Exn ThemeNotFoundError [theme]), s)
   ↔ theme ∉ l).
Proof.
  intros Hd Hl. rewrite use_theme_unfold, Hd, Hl.
  case_bool_decide; split; done.
Qed.

Lemma use_theme_refusal_witness :
  Repo.use_theme Toy.repo "solarized" (Toy.start Toy.installed)
  = (Raises (Exn ThemeNotFoundError ["solarized"]), Toy.start Toy.installed).
Proof.
  apply (use_theme_refusal Toy.repo "solarized" (Toy.start Toy.installed)
           ["default"; "dark"]); [vm_compute; reflexivity..|].
  intros H. by apply (bool_decide_pack _) in H.
Defined.

(** X24: [use_theme] of an installed theme, called a second time, returns
    [false] and leaves the repository as the first call left it. *)
Theorem use_theme_twice {W : Type} `{!Host W} (self : Repository) (theme : string)
    (s : state W) (l : list string) :
  os_path_isdir (world s) (posixpath.join (directory self) "themes") = true →
  os_listdir (world s) (posixpath.join (directory self) "themes") = inr l →
  theme ∈ l →
  ∃ changed self1,
    Repo.use_theme self theme s = (Returns (changed, self1), s)
    ∧ Repo.use_theme self1 theme s = (Returns (false, self1), s).
Proof.
  intros Hd Hl Hin. eexists _, _. split.
  - rewrite use_theme_unfold, Hd, Hl. by rewrite bool_decide_eq_true_2.
  - rewrite use_theme_unfold. simpl directory. rewrite Hd, Hl.
    rewrite bool_decide_eq_true_2 by done. simpl.
    rewrite lookup_insert_eq, insert_insert_eq. simpl.
    by rewrite String.eqb_refl.
Qed.

Lemma use_theme_twice_witness :
  ∃ changed self1,
    Repo.use_theme Toy.repo "dark" (Toy.start Toy.installed)
    = (Returns (changed, self1), Toy.start Toy.installed)
    ∧ Repo.use_theme self1 "dark" (Toy.start Toy.installed)
      = (Returns (false, self1), Toy.start Toy.installed).
Proof.
  apply (use_theme_twice Toy.repo "dark" (Toy.start Toy.installed) ["default"; "dark"]);
    [vm_compute; reflexivity..|].
  by apply (bool_decide_unpack _).
Defined.

(** X25: a [use_theme] that returns has changed, of the repository, what
    its configuration holds under the key [theme] and nothing else: the
    directories, the presenter and every other key are as before, and
    [plugins()] lists the requirements it listed before. *)
Theorem use_theme_frame {W : Type} `{!Host W} (self self' : Repository)
    (theme : string) (changed : bool) (s s' : state W) :
  Repo.use_theme self theme s = (Returns (changed, self'), s') →
  unchanged_except "theme" self self'
  ∧ ∃ l l', Repo.plugins self = inr l
            ∧ Repo.plugins self' = inr l'
            ∧ (∀ p, p ∈ l' ↔ p ∈ l).
Proof.
  rewrite use_theme_unfold.
  destruct (os_path_isdir _ _); [|done].
  destruct (os_listdir _ _) as [e|l]; [done|].
  case_bool_decide; [|done]. intros [= <- <- <-].
  split.
  - unfold unchanged_except. simpl. repeat split.
    intros k Hk. by rewrite lookup_insert_ne.
  - eexists _, _. split; [apply plugins_stored|]. split; [apply plugins_stored|].
    intros p. unfold stored_plugins. simpl. by rewrite lookup_insert_ne.
Qed.

Lemma use_theme_frame_witness :
  ∃ self',
    Repo.use_theme Toy.repo_with_x "dark" (Toy.start Toy.installed)
    = (Returns (true, self'), Toy.start Toy.installed)
    ∧ unchanged_except "theme" Toy.repo_with_x self'.
Proof.
  eexists. split; [vm_compute; reflexivity|].
  eapply (use_theme_frame Toy.repo_with_x _ "dark" true (Toy.start Toy.installed)
            (Toy.start Toy.installed)).
  vm_compute. reflexivity.
Defined.

(** X26: [build] on a repository that construction has returned reaches the
    presenter that was resolved for it: the path that presenter returns is
    the result, and [build] does not fail for want of a presenter. *)
Theorem new_then_build {W : Type} `{!Host W} (d c p : option string)
    (s s' : state W) (repo : Repository) :
  Repo.new d c p s = (Returns repo, s') →
  ∃ pr, presenter repo = Some pr
        ∧ ∀ out isolate s2 path w,
            Presenter_build pr [of_opt_str out] (world s2) = (inr path, w) →
            Repo.build repo out isolate s2
            = (Returns path, State w (log s2 ++ [EvPresenterBuild pr [of_opt_str out]])).
Proof.
  rewrite new_unfold. cbn zeta. repeat case_match; try done.
  intros [= <- <-]. eexists. split; [done|].
  intros out isolate s2 path w Hb. unfold Repo.build, call. simpl. by rewrite Hb.
Qed.

Lemma new_then_build_witness :
  Repo.new (Some ".gitpress") (Some ".") None (Toy.start Toy.installed)
  = (Returns Toy.repo, Toy.start Toy.installed)
  ∧ Repo.build Toy.repo (Some "/var/www") true (Toy.start Toy.installed)
    = (Returns "/var/www",
       State Toy.installed
         [EvPresenterBuild {| presenter_name := "default" |} [VStr "/var/www"]]).
Proof.
  assert (Repo.new (Some ".gitpress") (Some ".") None (Toy.start Toy.installed)
          = (Returns Toy.repo, Toy.start Toy.installed)) as Hnew
    by (vm_compute; reflexivity).
  split; [exact Hnew|].
  destruct (new_then_build _ _ _ _ _ _ Hnew) as (pr & Hpr & H).
  injection Hpr as <-.
  apply (H (Some "/var/www") true (Toy.start Toy.installed) "/var/www" Toy.installed).
  reflexivity.
Defined.
